(** * x-com-bot: a shallow embedding of the polling-and-reply bot

    The development follows the four source files:
    - [x_com_bot/config.py]   ([Module Config]: [load_config]),
    - [model_manager.py]      ([ModelManager], the Ollama client),
    - [bot.py]                ([XComBot]: rate limiter, retry, mention
                               pipeline and the run loop),
    - [run_bot.py]            ([main]).

    Python exceptions are values of [exn]; code that may raise returns a
    [result].  Stateful code runs in the state-and-exception monad [M] over
    a [State] that holds the bot object ([self]) and the outside world
    (clock, log sink, trace of outbound calls).  Everything the outside
    world answers (HTTP replies, API replies, clock drift) is read from an
    [Env] of oracles indexed by the number of interactions made so far, so
    every sequence of answers and failures is some [Env]. *)

From Stdlib Require Import ZArith QArith Qminmax Lqa String Ascii List Lia.
From stdpp Require Import base gmap strings list pretty.

Local Open Scope string_scope.
Local Open Scope Z_scope.

(** ** Exceptions and results *)

(** The subclasses of Python's [Exception] that the program can meet;
    these are exactly what an [except Exception] clause catches.
    [ClientError] stands for whatever [tweepy] or [requests] raise. *)
Inductive exn : Type :=
| ValueError (msg : string)
| TypeError (msg : string)
| KeyError (key : string)
| AttributeError (msg : string)
| ClientError (msg : string)
| RetryError (last_attempt : exn).

Inductive result (A : Type) : Type :=
| Ok (a : A)
| Raise (e : exn).
Arguments Ok {A} a.
Arguments Raise {A} e.

Definition is_raise {A} (r : result A) : bool :=
  match r with Ok _ => false | Raise _ => true end.

(** ** String helpers mirroring the Python built-ins the code uses *)

Module Py.

(** [sep.join(l)] *)
Definition join (sep : string) (l : list string) : string :=
  String.concat sep l.

(** [s.lower()] on ASCII text. *)
Definition lower_ascii (c : ascii) : ascii :=
  let n := nat_of_ascii c in
  if ((65 <=? n) && (n <=? 90))%nat then ascii_of_nat (n + 32) else c.

Fixpoint lower (s : string) : string :=
  match s with
  | EmptyString => EmptyString
  | String c s' => String (lower_ascii c) (lower s')
  end.

(** ASCII white space, as removed by [str.strip()] and skipped by
    [int()]. *)
Definition is_space (c : ascii) : bool :=
  let n := nat_of_ascii c in
  (((9 <=? n) && (n <=? 13)) || ((28 <=? n) && (n <=? 32)))%nat.

Fixpoint lstrip (s : string) : string :=
  match s with
  | String c s' => if is_space c then lstrip s' else s
  | EmptyString => EmptyString
  end.

Fixpoint rstrip (s : string) : string :=
  match s with
  | EmptyString => EmptyString
  | String c s' =>
      match rstrip s' with
      | EmptyString => if is_space c then EmptyString else String c EmptyString
      | r => String c r
      end
  end.

Definition strip (s : string) : string := rstrip (lstrip s).

(** [needle in haystack] *)
Fixpoint contains (needle haystack : string) : bool :=
  String.prefix needle haystack ||
  match haystack with
  | EmptyString => false
  | String _ h' => contains needle h'
  end.

(** [s.split(sep)] for a two-character separator [c1 c2]. *)
Fixpoint split2 (c1 c2 : ascii) (cur : string) (s : string) : list string :=
  match s with
  | EmptyString => [cur]
  | String a s' =>
      match s' with
      | String b s'' =>
          if (Ascii.eqb a c1 && Ascii.eqb b c2)%bool
          then cur :: split2 c1 c2 EmptyString s''
          else split2 c1 c2 (cur ++ String a EmptyString) s'
      | EmptyString => [cur ++ String a EmptyString]
      end
  end.

Definition is_digit (c : ascii) : bool :=
  let n := nat_of_ascii c in ((48 <=? n) && (n <=? 57))%nat.

Definition digit_value (c : ascii) : Z := Z.of_nat (nat_of_ascii c) - 48.

(** Decimal digits with single underscores between digits. *)
Fixpoint digits (acc : Z) (after_digit : bool) (s : string) : option Z :=
  match s with
  | EmptyString => if after_digit then Some acc else None
  | String c s' =>
      if is_digit c then digits (10 * acc + digit_value c) true s'
      else if (Ascii.eqb c "_" && after_digit)%bool then digits acc false s'
      else None
  end.

(** [int(s)] for a string: [None] stands for [ValueError].  Only ASCII
    digits and ASCII white space are recognised. *)
Definition int_of_str (s : string) : option Z :=
  match strip s with
  | String "-" s' => Z.opp <$> digits 0 false s'
  | String "+" s' => digits 0 false s'
  | s' => digits 0 false s'
  end.

(** [str(n)] for an integer. *)
Definition str_of_int (n : Z) : string := pretty n.

(** Observations on strings used to state what [strip] does. *)
Fixpoint all_space (s : string) : bool :=
  match s with
  | EmptyString => true
  | String c s' => is_space c && all_space s'
  end.

Definition first_char (s : string) : option ascii :=
  match s with
  | EmptyString => None
  | String c _ => Some c
  end.

Fixpoint last_char (s : string) : option ascii :=
  match s with
  | EmptyString => None
  | String c EmptyString => Some c
  | String _ s' => last_char s'
  end.

End Py.

(** ** x_com_bot/config.py *)

(** A value stored in the configuration dictionary: the result of
    [os.getenv] ([None] or a string) or an integer. *)
Inductive value : Type :=
| VNone
| VStr (s : string)
| VInt (n : Z).

Module Config.

Definition required_vars : list string :=
  [ "TWITTER_API_KEY";
    "TWITTER_API_SECRET";
    "TWITTER_ACCESS_TOKEN";
    "TWITTER_ACCESS_TOKEN_SECRET";
    "TWITTER_BEARER_TOKEN" ].

Definition getenv (environ : gmap string string) (var : string) : option string :=
  environ !! var.

Definition value_of_env (v : option string) : value :=
  match v with Some s => VStr s | None => VNone end.

(** One turn of the loop over [required_vars]. *)
Definition required_step (environ : gmap string string)
    (acc : gmap string value * list string) (var : string)
    : gmap string value * list string :=
  let '(config, missing_vars) := acc in
  let value := getenv environ var in
  let missing_vars :=
    match value with
    | None => (missing_vars ++ [var])%list
    | Some _ => missing_vars
    end in
  (<[Py.lower var := value_of_env value]> config, missing_vars).

Definition missing_prefix : string := "Missing required environment variables: ".

(** [load_config()]; [environ] is the process environment once
    [load_dotenv()] has added the variables of the [.env] file to it.
    The result is the lines printed and either the configuration or the
    error raised. *)
Definition load_config (environ : gmap string string)
    : list string * result (gmap string value) :=
  let '(config, missing_vars) :=
    fold_left (required_step environ) required_vars (∅, []) in
  let '(config, out1) :=
    match getenv environ "MODEL_NAME" with
    | Some (String c m) =>
        let model_name := String c m in
        (<["model_name" := VStr model_name]> config,
         ["Используем модель из .env: " ++ model_name])
    | _ =>
        (<["model_name" := VStr "deepseek-r1:1.5b"]> config,
         ["Модель не указана в .env, используем: deepseek-r1:1.5b"])
    end in
  let '(config, out2) :=
    match getenv environ "CHECK_INTERVAL" with
    | Some (String c i) =>
        let check_interval := String c i in
        match Py.int_of_str check_interval with
        | Some n =>
            (<["check_interval" := VInt n]> config,
             ["Используем интервал проверки из .env: " ++ check_interval ++ " секунд"])
        | None =>
            (<["check_interval" := VInt 60]> config,
             ["Неверный формат CHECK_INTERVAL в .env, используем: 60 секунд"])
        end
    | _ =>
        (<["check_interval" := VInt 60]> config,
         ["Интервал проверки не указан в .env, используем: 60 секунд"])
    end in
  ((out1 ++ out2)%list,
   match missing_vars with
   | _ :: _ => Raise (ValueError (missing_prefix ++ Py.join ", " missing_vars))
   | [] => Ok config
   end).

Definition is_missing (environ : gmap string string) (var : string) : bool :=
  match getenv environ var with None => true | Some _ => false end.

(** The required variables that [os.getenv] does not find, in the order
    of [required_vars]. *)
Definition missing (environ : gmap string string) : list string :=
  List.filter (is_missing environ) required_vars.

(** The variable names an error message of [load_config] lists. *)
Definition names_in_message (msg : string) : list string :=
  Py.split2 "," " " EmptyString
    (String.substring (String.length missing_prefix)
       (String.length msg - String.length missing_prefix)%nat msg).

(** The [model_name] and the [check_interval] that [load_config] stores,
    read off the environment. *)
Definition model_name_of (environ : gmap string string) : string :=
  match getenv environ "MODEL_NAME" with
  | Some (String c m) => String c m
  | _ => "deepseek-r1:1.5b"
  end.

Definition check_interval_of (environ : gmap string string) : Z :=
  match getenv environ "CHECK_INTERVAL" with
  | Some (String c i) => default 60 (Py.int_of_str (String c i))
  | _ => 60
  end.

End Config.

(** ** The state-and-exception monad *)

Definition M (S A : Type) : Type := S -> result A * S.

Definition ret {S A} (a : A) : M S A := fun s => (Ok a, s).

Definition raise {S A} (e : exn) : M S A := fun s => (Raise e, s).

Definition bind {S A B} (m : M S A) (k : A -> M S B) : M S B :=
  fun s =>
    match m s with
    | (Ok a, s') => k a s'
    | (Raise e, s') => (Raise e, s')
    end.

(** [try: m  except Exception as e: handler e] *)
Definition try_except {S A} (m : M S A) (handler : exn -> M S A) : M S A :=
  fun s =>
    match m s with
    | (Ok a, s') => (Ok a, s')
    | (Raise e, s') => handler e s'
    end.

Notation "x <- m ;; k" := (bind m (fun x => k))
  (at level 100, m at next level, right associativity).
Notation "m ;;; k" := (bind m (fun _ => k))
  (at level 100, right associativity).

(** [for x in l: body x] *)
Fixpoint for_each {S A} (body : A -> M S unit) (l : list A) : M S unit :=
  match l with
  | [] => ret tt
  | x :: l' => body x ;;; for_each body l'
  end.

(** ** The outside world *)

(** What the platform client ([tweepy]) hands back. *)
Record User := { user_id : Z; username : string }.

Record ReferencedTweet := { ref_id : Z; ref_type : string }.

Record Tweet := {
  tweet_id : Z;
  tweet_text : string;
  referenced_tweets : option (list ReferencedTweet)
}.

(** The outcome of one HTTP request made with [requests]: the request
    raises, or a response arrives.  [json] is what the code reads out of
    [response.json()] (of type [A] when the payload has the documented
    shape), or the exception that reading it raises. *)
Inductive Http (A : Type) : Type :=
| HttpRaise (e : exn)
| HttpResponse (status_code : Z) (text : string) (json : result A).
Arguments HttpRaise {A} e.
Arguments HttpResponse {A} status_code text json.

(** Outbound interactions, as they are recorded in the trace. *)
Inductive Event : Type :=
| GetMe
| GetUsersTweets (user : Z) (since_id : option Z)
| GetTweet (tweet : Z)
| CreateTweet (text : string) (in_reply_to_tweet_id : Z)
| ApiTags
| ApiGenerate (model : value) (prompt : string) (num_predict : Z) (temperature : Q)
| Sleep (seconds : Q).

(** The oracles.  The first argument is the number of interactions the
    process has made before this one. *)
Record Env := {
  elapsed : nat -> Q;
  get_me : nat -> result (option User);
  get_users_tweets : nat -> Z -> option Z -> result (option (list Tweet));
  get_tweet : nat -> Z -> result (option Tweet);
  create_tweet : nat -> string -> Z -> result unit;
  api_tags : nat -> Http (list string);
  api_generate : nat -> value -> string -> Http string
}.

Inductive Level := INFO | WARNING | ERROR.

(** A log record: the message text and, for the messages that interpolate
    a caught exception, that exception. *)
Record LogRecord := { level : Level; message : string; exc : option exn }.

Record World := {
  clock : Q;
  step : nat;
  log : list LogRecord;
  trace : list (Q * Event)
}.

Definition emit (l : Level) (msg : string) (e : option exn) : M World unit :=
  fun w =>
    (Ok tt,
     {| clock := clock w; step := step w;
        log := (log w ++ [{| level := l; message := msg; exc := e |}])%list;
        trace := trace w |}).

(** One interaction with the outside: it is recorded with the time at
    which it starts, and the clock moves on by what the environment says
    it took (plus [extra], for a sleep). *)
Definition interact (env : Env) (ev : Event) (extra : Q) : M World nat :=
  fun w =>
    (Ok (step w),
     {| clock := (clock w + extra + elapsed env (step w))%Q;
        step := S (step w);
        log := log w;
        trace := (trace w ++ [(clock w, ev)])%list |}).

(** [time.time()] *)
Definition time_time (env : Env) : M World Q :=
  fun w =>
    let w' := {| clock := (clock w + elapsed env (step w))%Q;
                 step := S (step w); log := log w; trace := trace w |} in
    (Ok (clock w'), w').

(** [time.sleep(seconds)] *)
Definition time_sleep (env : Env) (seconds : Q) : M World unit :=
  if Qle_bool 0 seconds
  then interact env (Sleep seconds) seconds ;;; ret tt
  else raise (ValueError "sleep length must be non-negative").

Definition of_result {S A} (r : result A) : M S A :=
  match r with Ok a => ret a | Raise e => raise e end.

Module Twitter.

Definition get_me (env : Env) : M World (option User) :=
  n <- interact env GetMe 0 ;; of_result (get_me env n).

Definition get_users_tweets (env : Env) (id : Z) (since_id : option Z)
    : M World (option (list Tweet)) :=
  n <- interact env (GetUsersTweets id since_id) 0 ;;
  of_result (get_users_tweets env n id since_id).

Definition get_tweet (env : Env) (id : Z) : M World (option Tweet) :=
  n <- interact env (GetTweet id) 0 ;; of_result (get_tweet env n id).

Definition create_tweet (env : Env) (text : string) (in_reply_to_tweet_id : Z)
    : M World unit :=
  n <- interact env (CreateTweet text in_reply_to_tweet_id) 0 ;;
  of_result (create_tweet env n text in_reply_to_tweet_id).

End Twitter.

Definition str_of_value (v : value) : string :=
  match v with
  | VNone => "None"
  | VStr s => s
  | VInt n => Py.str_of_int n
  end.

(** ** model_manager.py *)

Module ModelManager.

Record t := { model_name : value; ollama_url : string }.

Definition init (model_name : value) : t :=
  {| model_name := model_name; ollama_url := "http://localhost:11434" |}.

Definition list_available_models (env : Env) (self : t) : M World (list string) :=
  try_except
    (n <- interact env ApiTags 0 ;;
     match api_tags env n with
     | HttpRaise e => raise e
     | HttpResponse status_code _ json =>
         if status_code =? 200 then of_result json else ret []
     end)
    (fun e =>
       emit ERROR "Ошибка при получении списка моделей: " (Some e) ;;;
       ret []).

Definition no_models_message : string :=
  "Нет доступных моделей. Убедитесь, что Ollama запущена и хотя бы одна модель установлена." ++
  String (ascii_of_nat 10)
  "Для установки модели используйте команду: ollama pull MODEL_NAME".

Definition not_found_message (model_name : value) (available_models : list string) : string :=
  "Модель " ++ str_of_value model_name ++ " не найдена. Доступные модели:" ++
  String (ascii_of_nat 10) (Py.join ", " available_models) ++
  String (ascii_of_nat 10)
  "Для использования другой модели укажите её в .env файле через MODEL_NAME=имя_модели" ++
  String (ascii_of_nat 10)
  "Или установите новую модель командой: ollama pull MODEL_NAME".

(** [self.model_name in available_models] *)
Definition name_in (model_name : value) (available_models : list string) : bool :=
  match model_name with
  | VStr s => existsb (String.eqb s) available_models
  | _ => false
  end.

Definition ensure_model_exists (env : Env) (self : t) : M World unit :=
  available_models <- list_available_models env self ;;
  match available_models with
  | [] => raise (ValueError no_models_message)
  | _ :: _ =>
      if negb (name_in (model_name self) available_models)
      then raise (ValueError (not_found_message (model_name self) available_models))
      else emit INFO ("Модель " ++ str_of_value (model_name self) ++
                      " найдена и готова к использованию") None
  end.

Definition generate_response (env : Env) (self : t)
    (prompt : string) (max_tokens : Z) (temperature : Q) : M World string :=
  try_except
    (n <- interact env (ApiGenerate (model_name self) prompt max_tokens temperature) 0 ;;
     match api_generate env n (model_name self) prompt with
     | HttpRaise e => raise e
     | HttpResponse status_code text json =>
         if negb (status_code =? 200)
         then raise (ValueError ("Ошибка генерации: " ++ text))
         else result <- of_result json ;; ret (Py.strip result)
     end)
    (fun e =>
       emit ERROR "Ошибка при генерации ответа: " (Some e) ;;;
       raise e).

End ModelManager.

(** ** The retry decorator of [tenacity]

    [@retry(wait=w, stop=stop_after_attempt(n))] calls the function; when
    the call raises and fewer than [n] attempts were made, it sleeps
    [w(attempt_number)] and calls again; when the [n]-th attempt raises,
    it raises [RetryError] carrying that last failure ([reraise] is not
    set by the code). *)

Module Tenacity.

(** [wait_exponential(multiplier, min, max)] after attempt
    [attempt_number] (counted from 1). *)
Definition wait_exponential (multiplier min max : Q) (attempt_number : nat) : Q :=
  Qmax (Qmax 0 min)
       (Qmin (multiplier * 2 ^ (Z.of_nat attempt_number - 1)) max).

Record policy := { wait : nat -> Q; stop_after_attempt : nat }.

Fixpoint attempts {S A} (sleep : Q -> M S unit) (wait : nat -> Q)
    (remaining attempt_number : nat) (f : M S A) : M S A :=
  try_except f
    (fun e =>
       match remaining with
       | O => raise (RetryError e)
       | Datatypes.S remaining' =>
           sleep (wait attempt_number) ;;;
           attempts sleep wait remaining' (Datatypes.S attempt_number) f
       end).

Definition retry {S A} (sleep : Q -> M S unit) (p : policy) (f : M S A) : M S A :=
  attempts sleep (wait p) (stop_after_attempt p - 1) 1 f.

End Tenacity.

(** ** bot.py *)

Module XComBot.

Record t := {
  check_interval : Z;
  model_manager : ModelManager.t;
  request_delay : Q;
  last_request_time : Q
}.

(** The bot object, the local variable [last_mention_id] of [run], and
    the world. *)
Record State := { self : t; last_mention_id : option Z; world : World }.

Definition lift {A} (m : M World A) : M State A :=
  fun s =>
    let '(r, w) := m (world s) in
    (r, {| self := self s; last_mention_id := last_mention_id s; world := w |}).

Definition get_self : M State t := fun s => (Ok (self s), s).

Definition set_last_request_time (x : Q) : M State unit :=
  fun s =>
    (Ok tt,
     {| self := {| check_interval := check_interval (self s);
                   model_manager := model_manager (self s);
                   request_delay := request_delay (self s);
                   last_request_time := x |};
        last_mention_id := last_mention_id s;
        world := world s |}).

Definition get_last_mention_id : M State (option Z) :=
  fun s => (Ok (last_mention_id s), s).

Definition set_last_mention_id (x : option Z) : M State unit :=
  fun s => (Ok tt, {| self := self s; last_mention_id := x; world := world s |}).

Definition logger (l : Level) (msg : string) (e : option exn) : M State unit :=
  lift (emit l msg e).

(** The policy both decorated methods are given:
    [wait_exponential(multiplier=1, min=4, max=60)],
    [stop_after_attempt(3)]. *)
Definition retry_policy : Tenacity.policy :=
  {| Tenacity.wait := Tenacity.wait_exponential 1 4 60;
     Tenacity.stop_after_attempt := 3 |}.

Definition nl : string := String (ascii_of_nat 10) EmptyString.

Definition prompt (context query : string) : string :=
  "You are an AI assistant responding to posts on X.com (Twitter)." ++ nl ++
  "            Your task is to provide brief and relevant responses within 280 characters." ++ nl ++
  nl ++
  "            Original post: " ++ context ++ nl ++
  "            Reply to respond to: " ++ query ++ nl ++
  nl ++
  "            Please provide a concise and engaging response that fits Twitter's character limit.".

(** The body of [generate_response], without its decorator. *)
Definition generate_response_once (env : Env) (context query : string) : M State string :=
  try_except
    (self <- get_self ;;
     lift (ModelManager.generate_response env (model_manager self)
             (prompt context query) 280 (7 # 10)))
    (fun e => logger ERROR "Error generating AI response: " (Some e) ;;; raise e).

Definition generate_response (env : Env) (context query : string) : M State string :=
  Tenacity.retry (fun d => lift (time_sleep env d)) retry_policy
    (generate_response_once env context query).

Definition Qlt_bool (x y : Q) : bool := negb (Qle_bool y x).

Definition enforce_rate_limit (env : Env) : M State unit :=
  current_time <- lift (time_time env) ;;
  self <- get_self ;;
  let time_since_last := (current_time - last_request_time self)%Q in
  (if Qlt_bool time_since_last (request_delay self)
   then lift (time_sleep env (request_delay self - time_since_last)%Q)
   else ret tt) ;;;
  now <- lift (time_time env) ;;
  set_last_request_time now.

(** The body of [post_response], without its decorator. *)
Definition post_response_once (env : Env) (response : string) (reply_to_id : Z)
    : M State unit :=
  try_except
    (enforce_rate_limit env ;;;
     lift (Twitter.create_tweet env response reply_to_id) ;;;
     logger INFO ("Posted response to tweet " ++ Py.str_of_int reply_to_id) None)
    (fun e => logger ERROR "Error posting response: " (Some e) ;;; raise e).

Definition post_response (env : Env) (response : string) (reply_to_id : Z)
    : M State unit :=
  Tenacity.retry (fun d => lift (time_sleep env d)) retry_policy
    (post_response_once env response reply_to_id).

Definition is_replied_to (ref : ReferencedTweet) : bool :=
  String.eqb (ref_type ref) "replied_to".

(** Truth value of a possibly absent list. *)
Definition truthy {A} (l : option (list A)) : bool :=
  match l with
  | Some (_ :: _) => true
  | _ => false
  end.

Definition non_empty (s : string) : bool :=
  match s with EmptyString => false | String _ _ => true end.

(** The condition of the list comprehension in [get_mentions]. *)
Definition relevant (me : User) (tweet : Tweet) : bool :=
  (truthy (referenced_tweets tweet) &&
   existsb is_replied_to (default [] (referenced_tweets tweet)))
  || (non_empty (tweet_text tweet) &&
      Py.contains ("@" ++ username me) (tweet_text tweet)).

Definition none_has_no (attr : string) : exn :=
  AttributeError ("'NoneType' object has no attribute '" ++ attr ++ "'").

(** The [try] block of [get_mentions]. *)
Definition get_mentions_try (env : Env) (since_id : option Z) : M State (list Tweet) :=
  enforce_rate_limit env ;;;
  me <- lift (Twitter.get_me env) ;;
  match me with
  | None => raise (none_has_no "id")
  | Some me_data =>
      let user_id := user_id me_data in
      tweets <- lift (Twitter.get_users_tweets env user_id since_id) ;;
      if negb (truthy tweets) then ret []
      else
        let relevant_tweets := List.filter (relevant me_data) (default [] tweets) in
        logger INFO ("Retrieved " ++
                     Py.str_of_int (Z.of_nat (List.length relevant_tweets)) ++
                     " new interactions") None ;;;
        ret relevant_tweets
  end.

Definition get_mentions (env : Env) (since_id : option Z) : M State (list Tweet) :=
  try_except (get_mentions_try env since_id)
    (fun e => logger ERROR "Error getting tweets: " (Some e) ;;; ret []).

(** The [try] block of [process_mention]; the [for ... else] finds the
    first [replied_to] reference or falls into its [else]. *)
Definition process_mention_try (env : Env) (mention : Tweet) : M State unit :=
  if truthy (referenced_tweets mention) then
    match List.find is_replied_to (default [] (referenced_tweets mention)) with
    | Some ref =>
        original_tweet <- lift (Twitter.get_tweet env (ref_id ref)) ;;
        match original_tweet with
        | None => raise (none_has_no "text")
        | Some data =>
            let context := tweet_text data in
            response <- generate_response env context (tweet_text mention) ;;
            post_response env response (tweet_id mention)
        end
    | None =>
        logger WARNING ("No reply reference found for mention " ++
                        Py.str_of_int (tweet_id mention)) None
    end
  else
    logger WARNING ("No references found for mention " ++
                    Py.str_of_int (tweet_id mention)) None.

Definition process_mention (env : Env) (mention : Tweet) : M State unit :=
  try_except (process_mention_try env mention)
    (fun e =>
       logger ERROR ("Error processing mention " ++
                     Py.str_of_int (tweet_id mention) ++ ": ") (Some e)).

Definition sleep_check_interval (env : Env) : M State unit :=
  self <- get_self ;; lift (time_sleep env (inject_Z (check_interval self))).

(** The [if mentions:] block of [run]. *)
Definition process_batch (env : Env) (mentions : list Tweet) : M State unit :=
  match mentions with
  | first :: _ =>
      set_last_mention_id (Some (tweet_id first)) ;;;
      for_each (process_mention env) mentions
  | [] => ret tt
  end.

(** One turn of [while True] in [run]. *)
Definition run_iteration (env : Env) : M State unit :=
  try_except
    (since_id <- get_last_mention_id ;;
     mentions <- get_mentions env since_id ;;
     process_batch env mentions ;;;
     sleep_check_interval env)
    (fun e =>
       logger ERROR "Error in main loop: " (Some e) ;;;
       sleep_check_interval env).

(** Where [run] stands after some turns of its loop: still looping, or
    left by an exception.  The loop has no other exit. *)
Inductive Progress := StillRunning | Exited (e : exn).

Fixpoint run_loop (env : Env) (turns : nat) (s : State) : Progress * State :=
  match turns with
  | O => (StillRunning, s)
  | Datatypes.S turns' =>
      match run_iteration env s with
      | (Ok _, s') => run_loop env turns' s'
      | (Raise e, s') => (Exited e, s')
      end
  end.

Definition run (env : Env) (turns : nat) (s : State) : Progress * State :=
  run_loop env turns
    {| self := self s; last_mention_id := None; world := world s |}.

(** [config[key]] *)
Definition config_item (config : gmap string value) (key : string) : M World value :=
  match config !! key with
  | Some v => ret v
  | None => raise (KeyError key)
  end.

Definition setup_twitter_client (config : gmap string value) : M World unit :=
  config_item config "twitter_bearer_token" ;;;
  config_item config "twitter_api_key" ;;;
  config_item config "twitter_api_secret" ;;;
  config_item config "twitter_access_token" ;;;
  config_item config "twitter_access_token_secret" ;;;
  emit INFO "Twitter API v2 client initialized" None.

(** [int(v)] *)
Definition int_of_value (v : value) : M World Z :=
  match v with
  | VInt n => ret n
  | VStr s =>
      match Py.int_of_str s with
      | Some n => ret n
      | None => raise (ValueError ("invalid literal for int() with base 10: " ++ s))
      end
  | VNone => raise (TypeError "int() argument must be a string, a bytes-like object or a real number, not 'NoneType'")
  end.

Definition unreachable_message : string :=
  "Ollama не запущена или недоступна. " ++
  "Убедитесь, что сервис запущен командой: ollama serve".

(** The [except] clause of [__init__]; [available_models] is [None]
    while that local variable is not bound yet. *)
Definition init_handler {A} (available_models : option (list string)) (e : exn)
    : M World A :=
  emit ERROR "Ошибка при инициализации модели: " (Some e) ;;;
  (if truthy available_models
   then emit INFO ("Для использования другой модели, укажите MODEL_NAME в .env файле. " ++
                   "Доступные модели: " ++ Py.join ", " (default [] available_models)) None
   else ret tt) ;;;
  raise e.

(** The [try] block of [__init__], cut where [available_models] gets
    bound. *)
Definition init_model (env : Env) (config : gmap string value) : M World ModelManager.t :=
  let model_name := default VNone (config !! "model_name") in
  let model_manager := ModelManager.init model_name in
  available_models <-
    try_except
      (emit INFO ("Инициализация модели: " ++ str_of_value model_name) None ;;;
       ModelManager.list_available_models env model_manager)
      (init_handler None) ;;
  try_except
    (match available_models with
     | [] => raise (ValueError unreachable_message)
     | _ :: _ => ret tt
     end ;;;
     emit INFO ("Доступные модели: " ++ Py.join ", " available_models) None ;;;
     ModelManager.ensure_model_exists env model_manager ;;;
     emit INFO ("Модель " ++ str_of_value model_name ++ " готова к использованию") None ;;;
     ret model_manager)
    (init_handler (Some available_models)).

(** [XComBot.__init__(config)]; [setup_logging] only adds the file sink
    of the logger. *)
Definition init (env : Env) (config : gmap string value) : M World t :=
  setup_twitter_client config ;;;
  check_interval <- int_of_value (default (VInt 60) (config !! "check_interval")) ;;
  emit INFO ("Интервал проверки: " ++ Py.str_of_int check_interval ++ " секунд") None ;;;
  model_manager <- init_model env config ;;
  ret {| check_interval := check_interval;
         model_manager := model_manager;
         request_delay := 2;
         last_request_time := 0 |}.

End XComBot.

(** ** run_bot.py *)

(** [main()], observed after [turns] turns of the run loop: the error that
    ended the process, or [StillRunning]. *)
Definition main (env : Env) (environ : gmap string string) (turns : nat) (w : World)
    : XComBot.Progress * World :=
  let fatal (e : exn) (w : World) :=
    (XComBot.Exited e, snd (emit ERROR "Fatal error: " (Some e) w)) in
  match snd (Config.load_config environ) with
  | Raise e => fatal e w
  | Ok config =>
      match XComBot.init env config w with
      | (Raise e, w1) => fatal e w1
      | (Ok bot, w1) =>
          let w2 := snd (emit INFO "Bot initialized successfully" None w1) in
          match XComBot.run env turns
                  {| XComBot.self := bot;
                     XComBot.last_mention_id := None;
                     XComBot.world := w2 |} with
          | (XComBot.StillRunning, s) => (XComBot.StillRunning, XComBot.world s)
          | (XComBot.Exited e, s) => fatal e (XComBot.world s)
          end
      end
  end.

(** ** Concrete worlds and environments for the examples *)

Module Sample.

Definition me : User := {| user_id := 7; username := "bot" |}.

Definition world0 : World :=
  {| clock := 1000; step := 0; log := []; trace := [] |}.

Definition bot0 : XComBot.t :=
  {| XComBot.check_interval := 60;
     XComBot.model_manager := ModelManager.init (VStr "llama3");
     XComBot.request_delay := 2;
     XComBot.last_request_time := 0 |}.

Definition state0 : XComBot.State :=
  {| XComBot.self := bot0; XComBot.last_mention_id := None; XComBot.world := world0 |}.

(** A reply to tweet 40, a bare mention, and a tweet that is neither. *)
Definition reply : Tweet :=
  {| tweet_id := 50; tweet_text := "what about this?";
     referenced_tweets := Some [ {| ref_id := 40; ref_type := "replied_to" |} ] |}.

Definition bare_mention : Tweet :=
  {| tweet_id := 51; tweet_text := "@bot hello"; referenced_tweets := None |}.

Definition unrelated : Tweet :=
  {| tweet_id := 52; tweet_text := "good morning"; referenced_tweets := None |}.

Definition original : Tweet :=
  {| tweet_id := 40; tweet_text := "the original post"; referenced_tweets := None |}.

(** Every service answers, nothing is fetched, no time passes between
    interactions. *)
Definition calm : Env :=
  {| elapsed := fun _ => 0%Q;
     get_me := fun _ => Ok (Some me);
     get_users_tweets := fun _ _ _ => Ok None;
     get_tweet := fun _ _ => Ok (Some original);
     create_tweet := fun _ _ _ => Ok tt;
     api_tags := fun _ => HttpResponse 200 "" (Ok ["llama3"; "mistral"]);
     api_generate := fun _ _ _ => HttpResponse 200 "" (Ok " sure! ") |}.

Definition with_tweets (tweets : list Tweet) (env : Env) : Env :=
  {| elapsed := elapsed env;
     get_me := get_me env;
     get_users_tweets := fun _ _ _ => Ok (Some tweets);
     get_tweet := get_tweet env;
     create_tweet := create_tweet env;
     api_tags := api_tags env;
     api_generate := api_generate env |}.

(** The platform refuses every fetch of the timeline. *)
Definition fetch_down : Env :=
  {| elapsed := elapsed calm;
     get_me := get_me calm;
     get_users_tweets := fun _ _ _ => Raise (ClientError "503 Service Unavailable");
     get_tweet := get_tweet calm;
     create_tweet := create_tweet calm;
     api_tags := api_tags calm;
     api_generate := api_generate calm |}.

(** The inference endpoint fails until interaction [n], then answers. *)
Definition generate_up_from (n : nat) (env : Env) : Env :=
  {| elapsed := elapsed env;
     get_me := get_me env;
     get_users_tweets := get_users_tweets env;
     get_tweet := get_tweet env;
     create_tweet := create_tweet env;
     api_tags := api_tags env;
     api_generate := fun k model prompt =>
       if (k <? n)%nat then HttpRaise (ClientError "connection refused")
       else api_generate env k model prompt |}.

(** Posting is refused. *)
Definition post_down (env : Env) : Env :=
  {| elapsed := elapsed env;
     get_me := get_me env;
     get_users_tweets := get_users_tweets env;
     get_tweet := get_tweet env;
     create_tweet := fun _ _ _ => Raise (ClientError "403 Forbidden");
     api_tags := api_tags env;
     api_generate := api_generate env |}.

Definition full_environ : gmap string string :=
  {[ "TWITTER_API_KEY" := "k"; "TWITTER_API_SECRET" := "s";
     "TWITTER_ACCESS_TOKEN" := "t"; "TWITTER_ACCESS_TOKEN_SECRET" := "ts";
     "TWITTER_BEARER_TOKEN" := "b"; "MODEL_NAME" := "llama3" ]}.

Definition environ_without_bearer : gmap string string :=
  delete "TWITTER_BEARER_TOKEN" full_environ.

Definition environ_negative_interval : gmap string string :=
  <["CHECK_INTERVAL" := "-5"]> full_environ.

Definition environ_unknown_model : gmap string string :=
  <["MODEL_NAME" := "gpt-x"]> full_environ.

(** What [load_config] makes of [environ_unknown_model]. *)
Definition config_unknown_model : gmap string value :=
  match snd (Config.load_config environ_unknown_model) with
  | Ok config => config
  | Raise _ => ∅
  end.

(** The inference service is down. *)
Definition tags_down : Env :=
  {| elapsed := elapsed calm;
     get_me := get_me calm;
     get_users_tweets := get_users_tweets calm;
     get_tweet := get_tweet calm;
     create_tweet := create_tweet calm;
     api_tags := fun _ => HttpRaise (ClientError "connection refused");
     api_generate := api_generate calm |}.

(** The inference service answers the first query for its catalogue
    and is gone at the second. *)
Definition tags_vanish : Env :=
  {| elapsed := elapsed calm;
     get_me := get_me calm;
     get_users_tweets := get_users_tweets calm;
     get_tweet := get_tweet calm;
     create_tweet := create_tweet calm;
     api_tags := fun n =>
       if (n <? 1)%nat then HttpResponse 200 "" (Ok ["llama3"])
       else HttpRaise (ClientError "connection refused");
     api_generate := api_generate calm |}.

(** The referenced post cannot be fetched at the first interaction. *)
Definition get_tweet_fails_once (env : Env) : Env :=
  {| elapsed := elapsed env;
     get_me := get_me env;
     get_users_tweets := get_users_tweets env;
     get_tweet := fun n id =>
       if (n <? 1)%nat then Raise (ClientError "404 Not Found") else get_tweet env n id;
     create_tweet := create_tweet env;
     api_tags := api_tags env;
     api_generate := api_generate env |}.

(** The post a mention replies to has been deleted. *)
Definition original_deleted : Env :=
  {| elapsed := elapsed calm;
     get_me := get_me calm;
     get_users_tweets := get_users_tweets calm;
     get_tweet := fun _ _ => Ok None;
     create_tweet := create_tweet calm;
     api_tags := api_tags calm;
     api_generate := api_generate calm |}.

(** A configuration with the keys the docstring of [__init__] calls
    required, and no other. *)
Definition docstring_config : gmap string value :=
  {[ "twitter_api_key" := VStr "k"; "twitter_api_secret" := VStr "s";
     "twitter_access_token" := VStr "t";
     "twitter_access_token_secret" := VStr "ts" ]}.

(** The same with the bearer token and the interval given as text, as the
    annotation [Dict[str, str]] has it. *)
Definition text_config (interval : string) : gmap string value :=
  <["check_interval" := VStr interval]>
    (<["model_name" := VStr "llama3"]>
       (<["twitter_bearer_token" := VStr "b"]> docstring_config)).

Definition count_events (p : Event -> bool) (w : World) : nat :=
  List.length (List.filter (fun te => p (snd te)) (trace w)).

Definition is_fetch (ev : Event) : bool :=
  match ev with GetUsersTweets _ _ => true | _ => false end.

Definition is_generate (ev : Event) : bool :=
  match ev with ApiGenerate _ _ _ _ => true | _ => false end.

Definition is_post (ev : Event) : bool :=
  match ev with CreateTweet _ _ => true | _ => false end.

Definition is_get_tweet (ev : Event) : bool :=
  match ev with GetTweet _ => true | _ => false end.

Definition is_sleep (ev : Event) : bool :=
  match ev with Sleep _ => true | _ => false end.

End Sample.

(** ** Predicates used in the statements *)

(** [m] leaves the observation [f] of the state as it found it, however
    it ends. *)
Definition preserves {X A} (f : XComBot.State -> X) (m : M XComBot.State A) : Prop :=
  forall s, f (snd (m s)) = f s.

(** [f] does not look at the world. *)
Definition world_blind {X} (f : XComBot.State -> X) : Prop :=
  forall s w,
    f {| XComBot.self := XComBot.self s;
         XComBot.last_mention_id := XComBot.last_mention_id s;
         XComBot.world := w |} = f s.

(** [f] does not look at the rate limiter's time stamp. *)
Definition stamp_blind {X} (f : XComBot.State -> X) : Prop :=
  forall s x, f (snd (XComBot.set_last_request_time x s)) = f s.

Definition interval_of (s : XComBot.State) : Z :=
  XComBot.check_interval (XComBot.self s).

(** What [time.sleep] raises for a negative argument. *)
Definition sleep_error : exn := ValueError "sleep length must be non-negative".

(** The retry discipline in the words of the specification, for a body
    [body]: up to three attempts, four time-units of sleep after the
    first and after the second failure, and the failure of the third
    attempt handed on inside a [RetryError]. *)
Definition three_attempts {A} (env : Env) (body : M XComBot.State A)
    : M XComBot.State A :=
  fun s =>
    match body s with
    | (Ok a, s1) => (Ok a, s1)
    | (Raise _, s1) =>
        match body (snd (XComBot.lift (time_sleep env 4) s1)) with
        | (Ok a, s2) => (Ok a, s2)
        | (Raise _, s2) =>
            match body (snd (XComBot.lift (time_sleep env 4) s2)) with
            | (Ok a, s3) => (Ok a, s3)
            | (Raise e, s3) => (Raise (RetryError e), s3)
            end
        end
    end.

(** What the claim on retries asks of an operation all of whose attempts
    fail: three attempts, and an error for the caller. *)
Definition retried_to_exhaustion {A} (attempt : Event -> bool)
    (r : result A * XComBot.State) : Prop :=
  Sample.count_events attempt (XComBot.world (snd r)) = 3%nat /\
  is_raise (fst r) = true.




(** The inference service answers the catalogue query made as
    interaction number [n] with status 200 and the model names [names]. *)
Definition catalogue_is (env : Env) (n : nat) (names : list string) : Prop :=
  exists text, api_tags env n = HttpResponse 200 text (Ok names).

(** The keys [setup_twitter_client] reads, in the order it reads them. *)
Definition client_keys : list string :=
  [ "twitter_bearer_token"; "twitter_api_key"; "twitter_api_secret";
    "twitter_access_token"; "twitter_access_token_secret" ].

Definition lacks (config : gmap string value) (key : string) : bool :=
  match config !! key with None => true | Some _ => false end.


(** An outbound call made the way [post_response] and [get_mentions] make
    theirs: [enforce_rate_limit] first. *)
Definition rate_limited (env : Env) (ev : Event) : M XComBot.State nat :=
  XComBot.enforce_rate_limit env ;;; XComBot.lift (interact env ev 0).

(** * Theorems *)

(** ** Configuration loading *)

Section LoadConfig.

Variable environ : gmap string string.

Lemma required_loop (l : list string) (config : gmap string value) (acc : list string) :
  snd (fold_left (Config.required_step environ) l (config, acc))
  = (acc ++ List.filter (Config.is_missing environ) l)%list.
Proof.
  revert config acc.
  induction l as [|var l IH]; intros config acc; simpl.
  - by rewrite app_nil_r.
  - unfold Config.is_missing at 1.
    destruct (Config.getenv environ var); rewrite IH; [done|].
    by rewrite <- app_assoc.
Qed.

Lemma load_config_result :
  snd (Config.load_config environ) =
  match Config.missing environ with
  | [] => snd (Config.load_config environ)
  | _ :: _ =>
      Raise (ValueError
               (Config.missing_prefix ++ Py.join ", " (Config.missing environ)))
  end.
Proof.
  destruct (Config.missing environ) eqn:E; [done|].
  unfold Config.load_config.
  pose proof (required_loop Config.required_vars ∅ []) as H.
  destruct (fold_left _ Config.required_vars _) as [config missing].
  cbn [snd app] in H. fold (Config.missing environ) in H. rewrite E in H. subst missing.
  destruct (Config.getenv environ "MODEL_NAME") as [[|? ?]|];
    destruct (Config.getenv environ "CHECK_INTERVAL") as [[|? i]|];
    try destruct (Py.int_of_str (String _ i)); reflexivity.
Qed.

Lemma missing_spec (var : string) :
  var ∈ Config.missing environ ↔ var ∈ Config.required_vars ∧ environ !! var = None.
Proof.
  unfold Config.missing. rewrite !list_elem_of_In, filter_In.
  unfold Config.is_missing, Config.getenv.
  destruct (environ !! var); intuition congruence.
Qed.

Lemma names_in_message_missing :
  Config.missing environ ≠ [] →
  Config.names_in_message
    (Config.missing_prefix ++ Py.join ", " (Config.missing environ))
  = Config.missing environ.
Proof.
  unfold Config.missing, Config.required_vars. simpl List.filter.
  unfold Config.is_missing.
  destruct (Config.getenv environ "TWITTER_API_KEY");
    destruct (Config.getenv environ "TWITTER_API_SECRET");
    destruct (Config.getenv environ "TWITTER_ACCESS_TOKEN");
    destruct (Config.getenv environ "TWITTER_ACCESS_TOKEN_SECRET");
    destruct (Config.getenv environ "TWITTER_BEARER_TOKEN");
    intros Hne; try done; vm_compute; reflexivity.
Qed.

End LoadConfig.

(** C8: when a required variable is unset, [load_config] raises the
    [ValueError] whose message is the fixed prefix followed by the missing
    variables joined by [", "]; the names read back from the message are
    exactly the required variables that are unset; and [main] ends with
    that error without a single outbound call, so the bot is never
    initialized. *)
Theorem load_config_names_missing (environ : gmap string string) (unset : string) :
  unset ∈ Config.required_vars →
  environ !! unset = None →
  ∃ msg : string,
    snd (Config.load_config environ) = Raise (ValueError msg) ∧
    msg = Config.missing_prefix ++ Py.join ", " (Config.missing environ) ∧
    (∀ var : string,
        var ∈ Config.names_in_message msg ↔
        var ∈ Config.required_vars ∧ environ !! var = None) ∧
    (∀ (env : Env) (turns : nat) (w : World),
        fst (main env environ turns w) = XComBot.Exited (ValueError msg) ∧
        trace (snd (main env environ turns w)) = trace w).
Proof.
  intros Hreq Hunset.
  assert (unset ∈ Config.missing environ) as Hin by (by apply missing_spec).
  assert (Config.missing environ ≠ []) as Hne by (intros E; rewrite E in Hin; inversion Hin).
  pose proof (load_config_result environ) as Hres.
  destruct (Config.missing environ) as [|m ms] eqn:E; [done|].
  eexists. split; [exact Hres|]. split; [reflexivity|]. split.
  - intros var. rewrite <- E, names_in_message_missing by (by rewrite E).
    apply missing_spec.
  - intros env turns w. unfold main. rewrite Hres. by simpl.
Qed.

Lemma load_config_names_missing_witness :
  ∃ msg : string,
    snd (Config.load_config Sample.environ_without_bearer) = Raise (ValueError msg) ∧
    msg = Config.missing_prefix ++
          Py.join ", " (Config.missing Sample.environ_without_bearer) ∧
    (∀ var : string,
        var ∈ Config.names_in_message msg ↔
        var ∈ Config.required_vars ∧ Sample.environ_without_bearer !! var = None) ∧
    (∀ (env : Env) (turns : nat) (w : World),
        fst (main env Sample.environ_without_bearer turns w) = XComBot.Exited (ValueError msg) ∧
        trace (snd (main env Sample.environ_without_bearer turns w)) = trace w).
Proof.
  apply (load_config_names_missing Sample.environ_without_bearer "TWITTER_BEARER_TOKEN").
  - unfold Config.required_vars. set_solver.
  - vm_compute. reflexivity.
Defined.

(** ** The monad: how results and observations flow *)

Import XComBot.

Lemma bind_ok {S A B} (m : M S A) (k : A -> M S B) s a s' :
  m s = (Ok a, s') → bind m k s = k a s'.
Proof. intros H. unfold bind. by rewrite H. Qed.

Lemma bind_raise {S A B} (m : M S A) (k : A -> M S B) s e s' :
  m s = (Raise e, s') → bind m k s = (Raise e, s').
Proof. intros H. unfold bind. by rewrite H. Qed.

Lemma try_except_ok {S A} (m : M S A) h s a s' :
  m s = (Ok a, s') → try_except m h s = (Ok a, s').
Proof. intros H. unfold try_except. by rewrite H. Qed.

Lemma try_except_raise {S A} (m : M S A) h s e s' :
  m s = (Raise e, s') → try_except m h s = h e s'.
Proof. intros H. unfold try_except. by rewrite H. Qed.

(** A handler that always returns makes the whole [try] always return. *)
Lemma try_except_total {S A} (m : M S A) (h : exn -> M S A) :
  (∀ e s, ∃ a, fst (h e s) = Ok a) → ∀ s, ∃ a, fst (try_except m h s) = Ok a.
Proof.
  intros Hh s. unfold try_except.
  destruct (m s) as [[a|e] s']; [by exists a|apply Hh].
Qed.

Lemma for_each_total {S A} (body : A -> M S unit) (l : list A) :
  (∀ x s, fst (body x s) = Ok tt) →
  ∀ s, for_each body l s = (Ok tt, fold_left (λ s x, snd (body x s)) l s).
Proof.
  intros Hbody. induction l as [|x l IH]; intros s; [done|].
  simpl. unfold bind. specialize (Hbody x s).
  destruct (body x s) as [r s']; simpl in *; subst r. apply IH.
Qed.

Section Frame.

Context {X : Type} (f : State -> X).

Lemma preserves_ret {A} (a : A) : preserves f (ret a).
Proof. by intros s. Qed.

Lemma preserves_raise {A} (e : exn) : preserves f (@raise _ A e).
Proof. by intros s. Qed.

Lemma preserves_bind {A B} (m : M State A) (k : A -> M State B) :
  preserves f m → (∀ a, preserves f (k a)) → preserves f (bind m k).
Proof.
  intros Hm Hk s. unfold bind. specialize (Hm s).
  destruct (m s) as [[a|e] s']; simpl in *; [|done].
  by rewrite Hk.
Qed.

Lemma preserves_try_except {A} (m : M State A) (h : exn -> M State A) :
  preserves f m → (∀ e, preserves f (h e)) → preserves f (try_except m h).
Proof.
  intros Hm Hh s. unfold try_except. specialize (Hm s).
  destruct (m s) as [[a|e] s']; simpl in *; [done|].
  by rewrite Hh.
Qed.

(** What [bind] and [try_except] do to the observation when only the
    continuation is known to preserve it. *)
Lemma observe_bind {A B} (m : M State A) (k : A -> M State B) s :
  (∀ a, preserves f (k a)) → f (snd (bind m k s)) = f (snd (m s)).
Proof.
  intros Hk. unfold bind. destruct (m s) as [[a|e] s']; simpl; [apply Hk|done].
Qed.

Lemma observe_try_except {A} (m : M State A) (h : exn -> M State A) s :
  (∀ e, preserves f (h e)) → f (snd (try_except m h s)) = f (snd (m s)).
Proof.
  intros Hh. unfold try_except. destruct (m s) as [[a|e] s']; simpl; [done|apply Hh].
Qed.

Lemma preserves_for_each {A} (body : A -> M State unit) (l : list A) :
  (∀ x, preserves f (body x)) → preserves f (for_each body l).
Proof.
  intros Hbody. induction l as [|x l IH]; simpl.
  - apply preserves_ret.
  - apply preserves_bind; [apply Hbody|intros _; apply IH].
Qed.

Lemma preserves_attempts {A} (sleep : Q -> M State unit) (wait : nat -> Q)
    (remaining attempt_number : nat) (body : M State A) :
  (∀ d, preserves f (sleep d)) → preserves f body →
  preserves f (Tenacity.attempts sleep wait remaining attempt_number body).
Proof.
  intros Hsleep Hbody. revert attempt_number.
  induction remaining as [|r IH]; intros n; simpl.
  - apply preserves_try_except; [done|]. intros e. apply preserves_raise.
  - apply preserves_try_except; [done|]. intros e.
    apply preserves_bind; [apply Hsleep|intros _; apply IH].
Qed.

Hypothesis f_world_blind : world_blind f.
Hypothesis f_stamp_blind : stamp_blind f.

Lemma preserves_lift {A} (m : M World A) : preserves f (lift m).
Proof.
  intros s. unfold lift. destruct (m (world s)) as [r w]. simpl.
  apply f_world_blind.
Qed.

Lemma preserves_get_self : preserves f get_self.
Proof. by intros s. Qed.

Lemma preserves_get_last_mention_id : preserves f get_last_mention_id.
Proof. by intros s. Qed.

Lemma preserves_set_last_request_time x : preserves f (set_last_request_time x).
Proof. intros s. apply f_stamp_blind. Qed.

Lemma preserves_logger l msg e : preserves f (logger l msg e).
Proof. apply preserves_lift. Qed.

Ltac frame :=
  repeat first
    [ progress intros
    | apply preserves_ret | apply preserves_raise
    | apply preserves_lift | apply preserves_logger
    | apply preserves_get_self | apply preserves_get_last_mention_id
    | apply preserves_set_last_request_time
    | apply preserves_bind | apply preserves_try_except
    | apply preserves_for_each | apply preserves_attempts
    | match goal with
      | |- preserves _ (match ?x with _ => _ end) => destruct x
      end ].

Lemma preserves_enforce_rate_limit env : preserves f (enforce_rate_limit env).
Proof. unfold enforce_rate_limit. frame. Qed.

Lemma preserves_generate_response env context query :
  preserves f (generate_response env context query).
Proof. unfold generate_response, Tenacity.retry, generate_response_once. frame. Qed.

Lemma preserves_post_response env response reply_to_id :
  preserves f (post_response env response reply_to_id).
Proof.
  unfold post_response, Tenacity.retry, post_response_once. frame.
Qed.

Lemma preserves_get_mentions env since_id : preserves f (get_mentions env since_id).
Proof.
  unfold get_mentions, get_mentions_try. frame.
Qed.

Lemma preserves_process_mention env mention : preserves f (process_mention env mention).
Proof.
  unfold process_mention, process_mention_try. frame.
Qed.

Lemma preserves_process_batch env mentions
    (set_cursor_ok : ∀ x, preserves f (set_last_mention_id x)) :
  preserves f (process_batch env mentions).
Proof.
  unfold process_batch. destruct mentions; [apply preserves_ret|].
  apply preserves_bind; [apply set_cursor_ok|]. intros _.
  apply preserves_for_each. intros mention. apply preserves_process_mention.
Qed.

Lemma preserves_sleep_check_interval env : preserves f (sleep_check_interval env).
Proof. unfold sleep_check_interval. frame. Qed.

End Frame.

Lemma cursor_world_blind : world_blind last_mention_id.
Proof. by intros s w. Qed.

Lemma cursor_stamp_blind : stamp_blind last_mention_id.
Proof. by intros s x. Qed.

Lemma interval_world_blind : world_blind interval_of.
Proof. by intros s w. Qed.

Lemma interval_stamp_blind : stamp_blind interval_of.
Proof. by intros s x. Qed.

Lemma interval_set_cursor x : preserves interval_of (set_last_mention_id x).
Proof. by intros s. Qed.

Create HintDb frame.

#[local] Hint Resolve cursor_world_blind cursor_stamp_blind
  interval_world_blind interval_stamp_blind interval_set_cursor : frame.

(** ** Fetching mentions *)

Lemma logger_ok l msg e s : ∃ s', logger l msg e s = (Ok tt, s').
Proof. unfold logger, lift, emit. eauto. Qed.

Lemma get_mentions_total env since_id s :
  ∃ mentions, fst (get_mentions env since_id s) = Ok mentions.
Proof.
  apply try_except_total. intros e s'. exists [].
  unfold bind. destruct (logger_ok ERROR "Error getting tweets: " (Some e) s') as [s'' ->].
  reflexivity.
Qed.

(** What [get_mentions] returns: nothing, or the relevant ones among the
    tweets that the platform returned for the user [get_me] reported. *)
Lemma get_mentions_cases env since_id s :
  fst (get_mentions env since_id s) = Ok [] ∨
  ∃ n me tweets,
    get_me env n = Ok (Some me) ∧
    get_users_tweets env (S n) (user_id me) since_id = Ok (Some tweets) ∧
    fst (get_mentions env since_id s) = Ok (List.filter (relevant me) tweets).
Proof.
  remember (fst (get_mentions env since_id s)) as r eqn:Hr.
  unfold get_mentions, get_mentions_try, try_except in Hr.
  unfold bind at 1 in Hr.
  destruct (enforce_rate_limit env s) as [[[]|e] s1]; [|by left].
  unfold bind at 1 in Hr. unfold lift at 1 in Hr.
  unfold Twitter.get_me, bind, interact, of_result in Hr. simpl in Hr.
  destruct (get_me env (step (world s1))) as [[me|]|e] eqn:Hme; simpl in Hr;
    [|by left|by left].
  unfold lift at 1 in Hr.
  unfold Twitter.get_users_tweets, bind, interact, of_result in Hr. simpl in Hr.
  destruct (get_users_tweets env _ (user_id me) since_id) as [[[|t tweets]|]|e] eqn:Htw;
    simpl in Hr; [by left| |by left|by left].
  right. exists (step (world s1)), me, (t :: tweets).
  split; [done|]. split; [done|].
  subst r. reflexivity.
Qed.

(** ** One mention *)

Lemma find_none_of_existsb {A} (p : A -> bool) (l : list A) :
  existsb p l = false → List.find p l = None.
Proof.
  induction l as [|x l IH]; simpl; [done|].
  destruct (p x); simpl; [done|apply IH].
Qed.

Lemma process_mention_total env mention s :
  fst (process_mention env mention s) = Ok tt.
Proof.
  unfold process_mention, try_except.
  destruct (process_mention_try env mention s) as [[[]|e] s']; [done|].
  by destruct (logger_ok ERROR ("Error processing mention " ++
                Py.str_of_int (tweet_id mention) ++ ": ") (Some e) s') as [s'' ->].
Qed.

(** C3: a mention without a [replied_to] reference (also one without any
    reference) makes [process_mention] return normally after logging one
    warning: the bot object, the cursor, the clock and the trace of
    outbound calls are what they were, so no post is fetched, no text is
    generated and nothing is posted. *)
Theorem process_mention_without_reply_reference env (mention : Tweet) (s : State) :
  existsb is_replied_to (default [] (referenced_tweets mention)) = false →
  ∃ msg : string,
    process_mention env mention s =
    (Ok tt,
     {| self := self s;
        last_mention_id := last_mention_id s;
        world :=
          {| clock := clock (world s);
             step := step (world s);
             log := (log (world s) ++
                     [{| level := WARNING; message := msg; exc := None |}])%list;
             trace := trace (world s) |} |}).
Proof.
  intros Hnone. apply find_none_of_existsb in Hnone.
  unfold process_mention, process_mention_try, try_except.
  destruct (truthy (referenced_tweets mention)).
  - rewrite Hnone. eexists. reflexivity.
  - eexists. reflexivity.
Qed.

Lemma process_mention_without_reply_reference_witness :
  ∃ msg : string,
    process_mention Sample.calm Sample.bare_mention Sample.state0 =
    (Ok tt,
     {| self := self Sample.state0;
        last_mention_id := last_mention_id Sample.state0;
        world :=
          {| clock := clock (world Sample.state0);
             step := step (world Sample.state0);
             log := (log (world Sample.state0) ++
                     [{| level := WARNING; message := msg; exc := None |}])%list;
             trace := trace (world Sample.state0) |} |}).
Proof.
  apply (process_mention_without_reply_reference Sample.calm Sample.bare_mention).
  reflexivity.
Defined.

(** The scenario of the specification: ["@bot hello"] without references
    is relevant for the user [bot], and processing it only logs. *)
Example bare_mention_is_relevant_but_skipped :
  relevant Sample.me Sample.bare_mention = true ∧
  fst (process_mention Sample.calm Sample.bare_mention Sample.state0) = Ok tt ∧
  trace (world (snd (process_mention Sample.calm Sample.bare_mention Sample.state0))) = [] ∧
  map level (log (world (snd (process_mention Sample.calm Sample.bare_mention Sample.state0))))
  = [WARNING].
Proof. vm_compute. done. Qed.

(** C5: whatever the [try] block of [process_mention] raises (the fetch of
    the referenced post, the generation or the posting failed) is logged
    and [process_mention] returns normally; the loop over a batch
    therefore runs [process_mention] on every mention, one after the
    other, and returns normally too. *)
Theorem process_mention_contains_failures env :
  (∀ (mention : Tweet) (s : State),
      match process_mention_try env mention s with
      | (Ok _, s') => process_mention env mention s = (Ok tt, s')
      | (Raise e, s') =>
          process_mention env mention s =
          (Ok tt,
           snd (logger ERROR ("Error processing mention " ++
                              Py.str_of_int (tweet_id mention) ++ ": ") (Some e) s'))
      end) ∧
  (∀ (mentions : list Tweet) (s : State),
      for_each (process_mention env) mentions s =
      (Ok tt, fold_left (λ s mention, snd (process_mention env mention s)) mentions s)).
Proof.
  split.
  - intros mention s. unfold process_mention, try_except.
    by destruct (process_mention_try env mention s) as [[[]|e] s'].
  - intros mentions s. apply for_each_total. intros; apply process_mention_total.
Qed.

(** Each of the three steps can fail, and the batch goes on: with the
    timeline post gone, with the inference endpoint down, with posting
    refused, the second mention of a batch is still fetched. *)
Example batch_survives_failures :
  let fetch_fails := Sample.get_tweet_fails_once Sample.calm in
  let generate_fails := Sample.generate_up_from 100 Sample.calm in
  let post_fails := Sample.post_down Sample.calm in
  let batch := [Sample.reply; Sample.reply] in
  let fetches env :=
    Sample.count_events Sample.is_get_tweet
      (world (snd (for_each (process_mention env) batch Sample.state0))) in
  is_raise (fst (process_mention_try fetch_fails Sample.reply Sample.state0)) = true ∧
  is_raise (fst (process_mention_try generate_fails Sample.reply Sample.state0)) = true ∧
  is_raise (fst (process_mention_try post_fails Sample.reply Sample.state0)) = true ∧
  fetches fetch_fails = 2%nat ∧
  fetches generate_fails = 2%nat ∧
  fetches post_fails = 2%nat.
Proof. vm_compute. done. Qed.

(** C7: [get_mentions] always returns a list, and when its [try] block
    raises, the list is empty and the state is the one the failure left,
    with the error logged; the cycle of the run loop that made this poll
    leaves the cursor where it was. *)
Theorem get_mentions_swallows_errors env (since_id : option Z) (s : State) :
  (∃ mentions, fst (get_mentions env since_id s) = Ok mentions) ∧
  (∀ e : exn,
      fst (get_mentions_try env since_id s) = Raise e →
      get_mentions env since_id s =
      (Ok [], snd (logger ERROR "Error getting tweets: " (Some e)
                     (snd (get_mentions_try env since_id s)))) ∧
      (since_id = last_mention_id s →
       last_mention_id (snd (run_iteration env s)) = last_mention_id s)).
Proof.
  split; [apply get_mentions_total|].
  intros e He.
  assert (get_mentions env since_id s =
          (Ok [], snd (logger ERROR "Error getting tweets: " (Some e)
                         (snd (get_mentions_try env since_id s))))) as Hget.
  { unfold get_mentions, try_except.
    destruct (get_mentions_try env since_id s) as [[l|e'] s']; simpl in *; [done|].
    injection He as ->. reflexivity. }
  split; [exact Hget|]. intros ->.
  unfold run_iteration.
  rewrite observe_try_except
    by (intros; apply preserves_bind;
        [apply preserves_logger|intros; apply preserves_sleep_check_interval];
        auto with frame).
  unfold bind at 1. simpl.
  unfold bind at 1. rewrite Hget.
  rewrite observe_bind
    by (intros; apply preserves_sleep_check_interval; auto with frame).
  pose proof (preserves_get_mentions last_mention_id cursor_world_blind
                cursor_stamp_blind env (last_mention_id s) s) as Hkeep.
  rewrite Hget in Hkeep. exact Hkeep.
Qed.

Lemma get_mentions_swallows_errors_witness :
  get_mentions Sample.fetch_down None Sample.state0 =
  (Ok [], snd (logger ERROR "Error getting tweets: "
                 (Some (ClientError "503 Service Unavailable"))
                 (snd (get_mentions_try Sample.fetch_down None Sample.state0)))) ∧
  (None = last_mention_id Sample.state0 →
   last_mention_id (snd (run_iteration Sample.fetch_down Sample.state0))
   = last_mention_id Sample.state0).
Proof.
  apply (get_mentions_swallows_errors Sample.fetch_down None Sample.state0).
  vm_compute. reflexivity.
Defined.

(** The cursor after a turn of the loop, from what [get_mentions]
    returned in it. *)
Lemma run_iteration_cursor env (s : State) :
  ∃ mentions : list Tweet,
    fst (get_mentions env (last_mention_id s) s) = Ok mentions ∧
    last_mention_id (snd (run_iteration env s)) =
    match mentions with
    | first :: _ => Some (tweet_id first)
    | [] => last_mention_id s
    end.
Proof.
  destruct (get_mentions_total env (last_mention_id s) s) as [mentions Hget].
  exists mentions. split; [done|].
  pose proof (preserves_get_mentions last_mention_id cursor_world_blind
                cursor_stamp_blind env (last_mention_id s) s) as Hkeep.
  unfold run_iteration.
  rewrite observe_try_except
    by (intros; apply preserves_bind;
        [apply preserves_logger|intros; apply preserves_sleep_check_interval];
        auto with frame).
  unfold bind at 1. simpl.
  unfold bind at 1.
  destruct (get_mentions env (last_mention_id s) s) as [r s1].
  simpl in Hget, Hkeep. subst r.
  rewrite observe_bind
    by (intros; apply preserves_sleep_check_interval; auto with frame).
  destruct mentions as [|first rest]; [done|].
  unfold process_batch.
  rewrite observe_bind
    by (intros; apply preserves_for_each; intros;
        apply preserves_process_mention; auto with frame).
  reflexivity.
Qed.

(** C1: a cycle of the run loop sets the cursor to the id of the first
    element of what [get_mentions] returned, and leaves the cursor alone
    when [get_mentions] returned the empty list. *)
Theorem cursor_after_cycle env (s : State) :
  ∃ mentions : list Tweet,
    fst (get_mentions env (last_mention_id s) s) = Ok mentions ∧
    last_mention_id (snd (run_iteration env s)) =
    match mentions with
    | first :: _ => Some (tweet_id first)
    | [] => last_mention_id s
    end.
Proof. apply run_iteration_cursor. Qed.

(** The cursor moves: a cycle in which two mentions arrive leaves the id
    of the first one as cursor, an empty poll leaves the cursor alone. *)
Example cursor_moves_to_first_mention :
  let env := Sample.with_tweets [Sample.bare_mention; Sample.reply] Sample.calm in
  let s1 := snd (run_iteration env Sample.state0) in
  last_mention_id s1 = Some 51 ∧
  last_mention_id (snd (run_iteration Sample.calm s1)) = Some 51.
Proof. vm_compute. done. Qed.

(** C10: what [get_mentions] returns is empty or consists of tweets that
    are relevant for the user [get_me] reported; hence after a cycle the
    cursor is the one the cycle started with or the id of such a relevant
    tweet. *)
Theorem cursor_is_relevant env (s : State) :
  ∃ mentions : list Tweet,
    fst (get_mentions env (last_mention_id s) s) = Ok mentions ∧
    (mentions = [] ∨
     ∃ (n : nat) (me : User),
       get_me env n = Ok (Some me) ∧
       Forall (λ tweet, relevant me tweet = true) mentions) ∧
    (last_mention_id (snd (run_iteration env s)) = last_mention_id s ∨
     ∃ (n : nat) (me : User) (tweet : Tweet),
       get_me env n = Ok (Some me) ∧
       tweet ∈ mentions ∧
       relevant me tweet = true ∧
       last_mention_id (snd (run_iteration env s)) = Some (tweet_id tweet)).
Proof.
  destruct (run_iteration_cursor env s) as (mentions & Hget & Hcursor).
  exists mentions. split; [done|].
  assert (mentions = [] ∨
          ∃ (n : nat) (me : User),
            get_me env n = Ok (Some me) ∧
            Forall (λ tweet, relevant me tweet = true) mentions) as Hrel.
  { destruct (get_mentions_cases env (last_mention_id s) s)
      as [Hnil|(n & me & tweets & Hme & _ & Hfilter)].
    - left. congruence.
    - right. exists n, me. split; [done|].
      assert (mentions = List.filter (relevant me) tweets) as -> by congruence.
      apply List.Forall_forall. intros tweet Hin.
      by apply filter_In in Hin as [_ ?]. }
  split; [exact Hrel|].
  destruct mentions as [|first rest]; [by left|].
  right. destruct Hrel as [?|(n & me & Hme & Hall)]; [done|].
  exists n, me, first. split; [done|]. split; [by left|].
  split; [by inversion Hall|done].
Qed.

(** A newer tweet that the filter drops does not become the cursor. *)
Example filtered_tweet_is_not_the_cursor :
  let env := Sample.with_tweets [Sample.unrelated; Sample.bare_mention; Sample.reply]
               Sample.calm in
  relevant Sample.me Sample.unrelated = false ∧
  fst (get_mentions env None Sample.state0) = Ok [Sample.bare_mention; Sample.reply] ∧
  last_mention_id (snd (run_iteration env Sample.state0))
  = Some (tweet_id Sample.bare_mention).
Proof. vm_compute. done. Qed.

(** ** The rate limiter *)

Lemma Qlt_bool_true (x y : Q) : Qlt_bool x y = true → (x < y)%Q.
Proof.
  unfold Qlt_bool. intros H. apply negb_true_iff in H.
  apply Qnot_le_lt. intros Hle. apply Qle_bool_iff in Hle. congruence.
Qed.

Lemma Qlt_bool_false (x y : Q) : Qlt_bool x y = false → (y <= x)%Q.
Proof.
  unfold Qlt_bool. intros H. apply negb_false_iff in H. by apply Qle_bool_iff.
Qed.

Lemma time_sleep_ok env (seconds : Q) (w : World) :
  (0 <= seconds)%Q →
  time_sleep env seconds w =
  (Ok tt,
   {| clock := (clock w + seconds + elapsed env (step w))%Q;
      step := S (step w);
      log := log w;
      trace := (trace w ++ [(clock w, Sleep seconds)])%list |}).
Proof.
  intros H. apply Qle_bool_iff in H. unfold time_sleep. rewrite H. reflexivity.
Qed.

Lemma time_sleep_negative env (seconds : Z) (w : World) :
  seconds < 0 →
  time_sleep env (inject_Z seconds) w =
  (Raise (ValueError "sleep length must be non-negative"), w).
Proof.
  intros H. unfold time_sleep.
  assert (Qle_bool 0 (inject_Z seconds) = false) as ->; [|done].
  unfold Qle_bool. simpl. apply Z.leb_gt. lia.
Qed.

(** [enforce_rate_limit] returns, and the time stamp it records is the
    time at which it returns, at least [request_delay] after the time
    stamp it found; it adds at most a sleep to the trace. *)
Lemma enforce_rate_limit_spec env (s : State) :
  (∀ n, (0 <= elapsed env n)%Q) →
  ∃ (s' : State) (naps : list (Q * Event)),
    enforce_rate_limit env s = (Ok tt, s') ∧
    (last_request_time (self s) + request_delay (self s)
     <= last_request_time (self s'))%Q ∧
    clock (world s') = last_request_time (self s') ∧
    request_delay (self s') = request_delay (self s) ∧
    trace (world s') = (trace (world s) ++ naps)%list ∧
    Forall (λ te, Sample.is_sleep (snd te) = true) naps.
Proof.
  intros Hpos. destruct s as [[interval mm delay stamp] cursor [now n lg tr]].
  unfold enforce_rate_limit, bind, lift, time_time, get_self, set_last_request_time.
  cbn [world self last_request_time request_delay clock step log trace fst snd].
  destruct (Qlt_bool _ delay) eqn:Hlt.
  - apply Qlt_bool_true in Hlt.
    rewrite time_sleep_ok by lra.
    cbn [world self last_request_time request_delay clock step log trace fst snd].
    eexists _, [_]. split; [reflexivity|].
    cbn [world self last_request_time request_delay clock step log trace fst snd].
    pose proof (Hpos n). pose proof (Hpos (S n)). pose proof (Hpos (S (S n))).
    repeat split; try done; [lra|]. by repeat constructor.
  - apply Qlt_bool_false in Hlt.
    unfold ret.
    eexists _, []. split; [reflexivity|].
    cbn [world self last_request_time request_delay clock step log trace fst snd].
    pose proof (Hpos n). pose proof (Hpos (S n)).
    repeat split; try done; [lra|by rewrite app_nil_r].
Qed.

(** C4: take two outbound calls made behind [enforce_rate_limit], with
    nothing in between that touches the rate limiter.  Both are in the
    trace with the times at which they started: the first started at the
    time stamp recorded for it, the second at least [request_delay]
    later, and between what came before and the second call there are
    only sleeps.  [__init__] sets [request_delay] to 2. *)
Theorem consecutive_calls_are_spaced env (s between : State) (ev1 ev2 : Event) :
  (∀ n, (0 <= elapsed env n)%Q) →
  last_request_time (self between)
  = last_request_time (self (snd (rate_limited env ev1 s))) →
  request_delay (self between)
  = request_delay (self (snd (rate_limited env ev1 s))) →
  ∃ (s1 s2 : State) (n1 n2 : nat) (t1 t2 : Q) (earlier naps : list (Q * Event)),
    rate_limited env ev1 s = (Ok n1, s1) ∧
    rate_limited env ev2 between = (Ok n2, s2) ∧
    trace (world s1) = (earlier ++ [(t1, ev1)])%list ∧
    trace (world s2) = (trace (world between) ++ naps ++ [(t2, ev2)])%list ∧
    Forall (λ te, Sample.is_sleep (snd te) = true) naps ∧
    t1 = last_request_time (self s1) ∧
    (t1 + request_delay (self s1) <= t2)%Q ∧
    (∀ config w bot w',
        XComBot.init env config w = (Ok bot, w') → request_delay bot = 2%Q).
Proof.
  intros Hpos.
  destruct (enforce_rate_limit_spec env s Hpos)
    as (sa & naps1 & Hrun1 & _ & Hclock1 & _ & Htrace1 & _).
  pose (after (ev : Event) (x : State) :=
          {| self := self x; last_mention_id := last_mention_id x;
             world := {| clock := (clock (world x) + 0 + elapsed env (step (world x)))%Q;
                         step := S (step (world x));
                         log := log (world x);
                         trace := (trace (world x) ++ [(clock (world x), ev)])%list |} |}).
  assert (rate_limited env ev1 s = (Ok (step (world sa)), after ev1 sa)) as H1
    by (unfold rate_limited; by rewrite (bind_ok _ _ _ _ _ Hrun1)).
  rewrite H1. cbn [snd after self]. intros Hstamp Hdelay.
  destruct (enforce_rate_limit_spec env between Hpos)
    as (sb & naps2 & Hrun2 & Hspace & Hclock2 & _ & Htrace2 & Hnaps).
  exists (after ev1 sa), (after ev2 sb), (step (world sa)), (step (world sb)),
    (clock (world sa)), (clock (world sb)), (trace (world sa)), naps2.
  split; [done|].
  split; [unfold rate_limited; by rewrite (bind_ok _ _ _ _ _ Hrun2)|].
  cbn [after world trace self last_request_time request_delay] in *.
  split; [done|].
  split; [by rewrite Htrace2, <- !app_assoc|].
  split; [done|]. split; [done|].
  split; [by rewrite Hclock1, Hclock2, <- Hstamp, <- Hdelay|].
  intros config w bot w' Hinit. unfold XComBot.init, bind in Hinit.
  destruct (setup_twitter_client config w) as [[[]|?] ?]; [|done].
  destruct (int_of_value _ _) as [[?|?] ?]; [|done].
  destruct (emit _ _ _ _) as [[[]|?] ?]; [|done].
  destruct (init_model env config _) as [[?|?] ?]; [|done].
  by injection Hinit as <- _.
Qed.

Lemma consecutive_calls_are_spaced_witness :
  ∃ (s1 s2 : State) (n1 n2 : nat) (t1 t2 : Q) (earlier naps : list (Q * Event)),
    rate_limited Sample.calm GetMe Sample.state0 = (Ok n1, s1) ∧
    rate_limited Sample.calm (CreateTweet "sure!" 50)
      (snd (rate_limited Sample.calm GetMe Sample.state0)) = (Ok n2, s2) ∧
    trace (world s1) = (earlier ++ [(t1, GetMe)])%list ∧
    trace (world s2)
    = (trace (world (snd (rate_limited Sample.calm GetMe Sample.state0))) ++
       naps ++ [(t2, CreateTweet "sure!" 50)])%list ∧
    Forall (λ te, Sample.is_sleep (snd te) = true) naps ∧
    t1 = last_request_time (self s1) ∧
    (t1 + request_delay (self s1) <= t2)%Q ∧
    (∀ config w bot w',
        XComBot.init Sample.calm config w = (Ok bot, w') → request_delay bot = 2%Q).
Proof.
  apply (consecutive_calls_are_spaced Sample.calm Sample.state0
           (snd (rate_limited Sample.calm GetMe Sample.state0))).
  - intros n. simpl. lra.
  - reflexivity.
  - reflexivity.
Defined.

(** Two replies posted in immediate succession: the second starts two
    time-units after the first. *)
Example two_posts_in_succession :
  let s1 := snd (post_response_once Sample.calm "a" 50 Sample.state0) in
  let s2 := snd (post_response_once Sample.calm "b" 51 s1) in
  List.filter (λ te, Sample.is_post (snd te)) (trace (world s2))
  = [(1000%Q, CreateTweet "a" 50); (1002%Q, CreateTweet "b" 51)].
Proof. vm_compute. reflexivity. Qed.

(** ** The run loop *)

Lemma sleep_check_interval_negative env (s : State) :
  interval_of s < 0 → sleep_check_interval env s = (Raise sleep_error, s).
Proof.
  intros H. unfold sleep_check_interval, bind, get_self, lift. simpl.
  rewrite time_sleep_negative by exact H. by destruct s.
Qed.


Lemma preserves_run_iteration env : preserves interval_of (run_iteration env).
Proof.
  unfold run_iteration.
  apply preserves_try_except.
  - apply preserves_bind; [done|]. intros since_id.
    apply preserves_bind;
      [apply preserves_get_mentions; auto with frame|].
    intros mentions. apply preserves_bind;
      [apply preserves_process_batch|
       intros _; apply preserves_sleep_check_interval]; auto with frame.
  - intros e. apply preserves_bind;
      [apply preserves_logger|intros; apply preserves_sleep_check_interval];
      auto with frame.
Qed.

(** With a negative [check_interval] a turn of the loop ends in the
    [ValueError] of [time.sleep], raised inside the [except] clause. *)
Lemma run_iteration_negative env (s : State) :
  interval_of s < 0 → fst (run_iteration env s) = Raise sleep_error.
Proof.
  intros Hneg.
  assert (∀ e s', interval_of s' < 0 →
            fst ((logger ERROR "Error in main loop: " (Some e) ;;;
                  sleep_check_interval env) s') = Raise sleep_error) as Hhandler.
  { intros e s' H. unfold bind.
    destruct (logger_ok ERROR "Error in main loop: " (Some e) s') as [s'' Hlog].
    pose proof (preserves_logger interval_of interval_world_blind
                  ERROR "Error in main loop: " (Some e) s') as Hkeep.
    rewrite Hlog in *. simpl in Hkeep.
    rewrite sleep_check_interval_negative by lia. done. }
  pose proof (preserves_run_iteration env s) as Hkeep.
  unfold run_iteration, try_except in *.
  match goal with
  | |- context [match ?body s with _ => _ end] =>
      assert (∃ e s', body s = (Raise e, s') ∧ interval_of s' < 0) as (e & s' & -> & Hs')
  end; [|by apply Hhandler].
  unfold bind at 1. simpl. unfold bind at 1.
  pose proof (preserves_get_mentions interval_of interval_world_blind
                interval_stamp_blind env (last_mention_id s) s) as Hget.
  destruct (get_mentions env (last_mention_id s) s) as [[mentions|e] s1];
    simpl in Hget; [|exists e, s1; split; [done|lia]].
  unfold bind at 1.
  pose proof (preserves_process_batch interval_of interval_world_blind
                interval_stamp_blind env mentions interval_set_cursor s1) as Hm.
  destruct (process_batch env mentions s1) as [[[]|e] s2]; simpl in Hm.
  - rewrite sleep_check_interval_negative by lia.
    exists sleep_error, s2. split; [done|lia].
  - exists e, s2. split; [done|lia].
Qed.



(** C6, at the input where the code leaves the loop: with a negative
    [check_interval], whatever the environment does, [run] is left by an
    exception in its first turn. *)
Theorem run_exits_on_negative_interval env (turns : nat) (s : State) :
  interval_of s < 0 →
  fst (run env (S turns) s) = Exited sleep_error.
Proof.
  intros Hneg. unfold run. simpl.
  set (s0 := {| self := self s; last_mention_id := None; world := world s |}).
  pose proof (run_iteration_negative env s0 Hneg) as H.
  destruct (run_iteration env s0) as [r s']. simpl in H. by subst r.
Qed.

Lemma run_exits_on_negative_interval_witness :
  fst (run Sample.calm 1
         {| self := {| check_interval := -5;
                       model_manager := ModelManager.init (VStr "llama3");
                       request_delay := 2;
                       last_request_time := 0 |};
            last_mention_id := None;
            world := Sample.world0 |})
  = Exited sleep_error.
Proof.
  apply (run_exits_on_negative_interval Sample.calm 0). reflexivity.
Defined.

(** The same from the start of the process: [CHECK_INTERVAL=-5] passes
    [load_config] and [__init__], and [main] ends with the error in the
    first turn of the loop. *)
Example main_exits_on_negative_interval :
  fst (main Sample.calm Sample.environ_negative_interval 1 Sample.world0)
  = Exited sleep_error.
Proof. vm_compute. reflexivity. Qed.

(** ** Retries *)

Lemma wait_exponential_bounds (attempt_number : nat) :
  (4 <= Tenacity.wait retry_policy attempt_number <= 60)%Q.
Proof.
  simpl. unfold Tenacity.wait_exponential. split.
  - apply Qle_trans with (Qmax 0 4); [apply Q.le_max_r|apply Q.le_max_l].
  - apply Q.max_lub; [by vm_compute|apply Q.le_min_r].
Qed.

Lemma wait_exponential_first_two :
  Tenacity.wait retry_policy 1 = 4%Q ∧ Tenacity.wait retry_policy 2 = 4%Q.
Proof. by vm_compute. Qed.

(** The decorator with the policy of the code is the discipline of
    [three_attempts], whatever the body. *)
Lemma retry_is_three_attempts {A} env (body : M State A) (s : State) :
  Tenacity.retry (λ d, lift (time_sleep env d)) retry_policy body s
  = three_attempts env body s.
Proof.
  assert (∀ x, lift (time_sleep env 4) x
               = (Ok tt, snd (lift (time_sleep env 4) x))) as Hsleep.
  { intros x. unfold lift. by rewrite time_sleep_ok by (by vm_compute). }
  destruct wait_exponential_first_two as [Hw1 Hw2].
  unfold Tenacity.retry, three_attempts.
  change (Tenacity.stop_after_attempt retry_policy - 1)%nat with 2%nat.
  cbn [Tenacity.attempts]. rewrite Hw1, Hw2.
  unfold try_except at 1.
  destruct (body s) as [[a|e1] s1]; [done|].
  unfold bind at 1.
  remember (snd (lift (time_sleep env 4) s1)) as s1' eqn:E1.
  rewrite (Hsleep s1), <- E1.
  unfold try_except at 1.
  destruct (body s1') as [[a|e2] s2]; [done|].
  unfold bind at 1.
  remember (snd (lift (time_sleep env 4) s2)) as s2' eqn:E2.
  rewrite (Hsleep s2), <- E2.
  unfold try_except at 1.
  by destruct (body s2') as [[a|e3] s3].
Qed.

Lemma list_available_models_total env (mm : ModelManager.t) (w : World) :
  ∃ models, fst (ModelManager.list_available_models env mm w) = Ok models.
Proof.
  apply try_except_total. intros e w'. exists []. reflexivity.
Qed.

(** C2, as the code has it: the two decorated methods, [generate_response]
    and [post_response], run their body up to three times, sleeping four
    time-units after the first and after the second failure, and hand the
    third failure on inside a [RetryError]; every wait of the policy lies
    between 4 and 60.  [get_mentions] runs its body once and turns a
    failure into the empty list, and [list_available_models] makes one
    request and answers the empty list when it fails. *)
Theorem retry_covers_generate_and_post env :
  (∀ context query s,
      generate_response env context query s
      = three_attempts env (generate_response_once env context query) s) ∧
  (∀ response reply_to_id s,
      post_response env response reply_to_id s
      = three_attempts env (post_response_once env response reply_to_id) s) ∧
  (∀ attempt_number : nat,
      (4 <= Tenacity.wait retry_policy attempt_number <= 60)%Q) ∧
  (∀ since_id s,
      get_mentions env since_id s =
      match get_mentions_try env since_id s with
      | (Ok mentions, s') => (Ok mentions, s')
      | (Raise e, s') =>
          (Ok [], snd (logger ERROR "Error getting tweets: " (Some e) s'))
      end) ∧
  (∀ mm w e,
      api_tags env (step w) = HttpRaise e →
      fst (ModelManager.list_available_models env mm w) = Ok [] ∧
      trace (snd (ModelManager.list_available_models env mm w))
      = (trace w ++ [(clock w, ApiTags)])%list) ∧
  (∀ mention ref s e,
      truthy (referenced_tweets mention) = true →
      List.find is_replied_to (default [] (referenced_tweets mention)) = Some ref →
      get_tweet env (step (world s)) (ref_id ref) = Raise e →
      fst (process_mention_try env mention s) = Raise e ∧
      trace (world (snd (process_mention_try env mention s)))
      = (trace (world s) ++ [(clock (world s), GetTweet (ref_id ref))])%list).
Proof.
  split; [intros; apply retry_is_three_attempts|].
  split; [intros; apply retry_is_three_attempts|].
  split; [apply wait_exponential_bounds|].
  split; [|split].
  - intros since_id s. unfold get_mentions, try_except.
    by destruct (get_mentions_try env since_id s) as [[mentions|e] s'].
  - intros mm w e He.
    unfold ModelManager.list_available_models, try_except, bind, interact.
    simpl. rewrite He. by simpl.
  - intros mention ref s e Hrefs Hfind He.
    unfold process_mention_try. rewrite Hrefs, Hfind.
    unfold bind, lift, Twitter.get_tweet, bind, interact. simpl.
    rewrite He. by simpl.
Qed.

Lemma retry_covers_generate_and_post_witness :
  fst (ModelManager.list_available_models Sample.tags_down
         (ModelManager.init (VStr "llama3")) Sample.world0) = Ok [] ∧
  trace (snd (ModelManager.list_available_models Sample.tags_down
                (ModelManager.init (VStr "llama3")) Sample.world0))
  = (trace Sample.world0 ++ [(clock Sample.world0, ApiTags)])%list.
Proof.
  destruct (retry_covers_generate_and_post Sample.tags_down) as (_ & _ & _ & _ & H & _).
  apply (H (ModelManager.init (VStr "llama3")) Sample.world0
           (ClientError "connection refused")).
  reflexivity.
Defined.

(** The claim fails for fetching mentions: with a platform that refuses
    every fetch of the timeline, [get_mentions] tries once, does not wait,
    and returns the empty list instead of an error. *)
Lemma fetching_mentions_is_not_retried :
  let r := get_mentions Sample.fetch_down None Sample.state0 in
  (∀ n id since_id,
      get_users_tweets Sample.fetch_down n id since_id
      = Raise (ClientError "503 Service Unavailable")) ∧
  Sample.count_events Sample.is_fetch (world (snd r)) = 1%nat ∧
  Sample.count_events Sample.is_sleep (world (snd r)) = 0%nat ∧
  fst r = Ok [] ∧
  ¬ retried_to_exhaustion Sample.is_fetch r.
Proof.
  split; [done|]. split; [by vm_compute|]. split; [by vm_compute|].
  split; [by vm_compute|].
  intros [H _]. vm_compute in H. discriminate.
Qed.

(** The scenario of the specification: an inference endpoint that fails
    twice and then answers is asked three times and its answer returned;
    one that keeps failing is asked three times and the error goes to the
    caller. *)
Example generate_response_retries :
  let third_time := generate_response (Sample.generate_up_from 4 Sample.calm)
                      "context" "query" Sample.state0 in
  let never := generate_response (Sample.generate_up_from 100 Sample.calm)
                 "context" "query" Sample.state0 in
  fst third_time = Ok "sure!" ∧
  Sample.count_events Sample.is_generate (world (snd third_time)) = 3%nat ∧
  List.filter (λ te, Sample.is_sleep (snd te)) (trace (world (snd third_time)))
  = [(1000%Q, Sleep 4); (1004%Q, Sleep 4)] ∧
  fst never = Raise (RetryError (ClientError "connection refused")) ∧
  retried_to_exhaustion Sample.is_generate never.
Proof. vm_compute. done. Qed.

(** ** Start-up *)

Lemma required_loop_keeps (environ : gmap string string) (l : list string)
    (config : gmap string value) (acc : list string) (key : string) :
  is_Some (config !! key) →
  is_Some (fst (fold_left (Config.required_step environ) l (config, acc)) !! key).
Proof.
  revert config acc. induction l as [|var l IH]; intros config acc Hkey; [done|].
  simpl. apply IH. rewrite lookup_insert_is_Some'. by right.
Qed.

Lemma required_loop_sets (environ : gmap string string) (l : list string)
    (config : gmap string value) (acc : list string) (var : string) :
  var ∈ l →
  is_Some (fst (fold_left (Config.required_step environ) l (config, acc))
             !! Py.lower var).
Proof.
  revert config acc. induction l as [|x l IH]; intros config acc Hin.
  - inversion Hin.
  - simpl. apply elem_of_cons in Hin as [->|Hin]; [|by apply IH].
    apply required_loop_keeps. rewrite lookup_insert_is_Some'. by left.
Qed.

(** A configuration that [load_config] returns has the five credentials,
    an integer [check_interval] and a string [model_name]. *)
Lemma load_config_ok (environ : gmap string string) (config : gmap string value) :
  snd (Config.load_config environ) = Ok config →
  (∀ var, var ∈ Config.required_vars → is_Some (config !! Py.lower var)) ∧
  (∃ n, config !! "check_interval" = Some (VInt n)) ∧
  (∃ m, config !! "model_name" = Some (VStr m)).
Proof.
  unfold Config.load_config.
  pose proof (λ var, required_loop_sets environ Config.required_vars ∅ [] var) as Hreq.
  destruct (fold_left _ Config.required_vars _) as [config0 missing].
  simpl in Hreq.
  assert (∀ (c1 : gmap string value) (o1 o2 : list string) m,
            (∀ var, var ∈ Config.required_vars → is_Some (c1 !! Py.lower var)) →
            c1 !! "model_name" = Some (VStr m) →
            ∀ n,
            snd ((o1 ++ o2)%list,
                 match missing with
                 | [] => Ok (<["check_interval" := VInt n]> c1)
                 | _ :: _ => Raise (ValueError
                     (Config.missing_prefix ++ Py.join ", " missing))
                 end) = Ok config →
            (∀ var, var ∈ Config.required_vars → is_Some (config !! Py.lower var)) ∧
            (∃ n, config !! "check_interval" = Some (VInt n)) ∧
            (∃ m, config !! "model_name" = Some (VStr m))) as Hfinal.
  { intros c1 o1 o2 m Hc1 Hm n H. simpl in H.
    destruct missing; [|done]. injection H as <-.
    split; [|split].
    - intros var Hvar. rewrite lookup_insert_is_Some'. right. by apply Hc1.
    - exists n. apply lookup_insert_eq.
    - exists m. by rewrite lookup_insert_ne. }
  assert (∀ m, ∀ var, var ∈ Config.required_vars →
            is_Some (<["model_name" := VStr m]> config0 !! Py.lower var)) as Hc1.
  { intros m var Hvar. rewrite lookup_insert_is_Some'. right. by apply Hreq. }
  destruct (Config.getenv environ "MODEL_NAME") as [[|c m]|];
    destruct (Config.getenv environ "CHECK_INTERVAL") as [[|c' i]|];
    try destruct (Py.int_of_str (String c' i));
    intros H; eapply Hfinal; try exact H; try apply Hc1; apply lookup_insert_eq.
Qed.

Lemma setup_twitter_client_ok (config : gmap string value) (w : World) :
  (∀ var, var ∈ Config.required_vars → is_Some (config !! Py.lower var)) →
  ∃ w', setup_twitter_client config w = (Ok tt, w') ∧ trace w' = trace w.
Proof.
  intros Hkeys. unfold setup_twitter_client, config_item, bind.
  destruct (Hkeys "TWITTER_BEARER_TOKEN") as [? H1]; [set_solver|].
  destruct (Hkeys "TWITTER_API_KEY") as [? H2]; [set_solver|].
  destruct (Hkeys "TWITTER_API_SECRET") as [? H3]; [set_solver|].
  destruct (Hkeys "TWITTER_ACCESS_TOKEN") as [? H4]; [set_solver|].
  destruct (Hkeys "TWITTER_ACCESS_TOKEN_SECRET") as [? H5]; [set_solver|].
  change (Py.lower "TWITTER_BEARER_TOKEN") with "twitter_bearer_token" in H1.
  change (Py.lower "TWITTER_API_KEY") with "twitter_api_key" in H2.
  change (Py.lower "TWITTER_API_SECRET") with "twitter_api_secret" in H3.
  change (Py.lower "TWITTER_ACCESS_TOKEN") with "twitter_access_token" in H4.
  change (Py.lower "TWITTER_ACCESS_TOKEN_SECRET") with "twitter_access_token_secret" in H5.
  rewrite H1, H2, H3, H4, H5. simpl. eauto.
Qed.

Section ModelCheck.

Variable env : Env.
Variable model_name : value.
Variable catalog : list string.

(** The inference service answers every query for its catalogue with
    [catalog]. *)
Hypothesis stable_catalog :
  ∀ w, fst (ModelManager.list_available_models env
              (ModelManager.init model_name) w) = Ok catalog.

Variable config : gmap string value.
Hypothesis configured : default VNone (config !! "model_name") = model_name.

Lemma init_model_unreachable (w : World) :
  catalog = [] →
  fst (init_model env config w) = Raise (ValueError unreachable_message).
Proof.
  intros Hempty. unfold init_model. rewrite configured.
  unfold bind at 1. unfold try_except at 1. unfold bind at 1.
  unfold emit at 1. cbv beta iota zeta.
  match goal with
  | |- context [ModelManager.list_available_models env _ ?w1] =>
      pose proof (stable_catalog w1) as H1;
      destruct (ModelManager.list_available_models env (ModelManager.init model_name) w1)
        as [r w2]
  end.
  simpl in H1. subst r catalog. reflexivity.
Qed.

Lemma init_model_not_installed (w : World) :
  catalog ≠ [] →
  ModelManager.name_in model_name catalog = false →
  fst (init_model env config w) =
  Raise (ValueError (ModelManager.not_found_message model_name catalog)).
Proof.
  intros Hne Hnot. unfold init_model. rewrite configured.
  unfold bind at 1. unfold try_except at 1. unfold bind at 1.
  unfold emit at 1. cbv beta iota zeta.
  match goal with
  | |- context [ModelManager.list_available_models env _ ?w1] =>
      pose proof (stable_catalog w1) as H1;
      destruct (ModelManager.list_available_models env (ModelManager.init model_name) w1)
        as [r w2]
  end.
  simpl in H1. subst r. cbv beta iota zeta.
  destruct catalog as [|c cs] eqn:Hcat; [done|].
  unfold try_except, bind. unfold ret at 1, emit at 1. cbv beta iota zeta.
  unfold ModelManager.ensure_model_exists, bind.
  match goal with
  | |- context [ModelManager.list_available_models env _ ?w3] =>
      pose proof (stable_catalog w3) as H3;
      destruct (ModelManager.list_available_models env (ModelManager.init model_name) w3)
        as [r w4]
  end.
  simpl in H3. subst r. cbn [ModelManager.model_name ModelManager.init].
  rewrite Hnot. reflexivity.
Qed.

End ModelCheck.

Lemma init_handler_raises {A} (available_models : option (list string)) (e : exn) (w : World) :
  fst (@init_handler A available_models e w) = Raise e.
Proof. unfold init_handler, bind, emit. by destruct (truthy available_models). Qed.

(** When the model check fails, a configuration from [load_config] takes
    [main] to that failure before the loop is entered. *)
Lemma main_fails_with_init_model env environ config (e : exn) (turns : nat) (w : World) :
  snd (Config.load_config environ) = Ok config →
  (∀ w', fst (init_model env config w') = Raise e) →
  fst (main env environ turns w) = Exited e.
Proof.
  intros Hload Hmodel. unfold main. rewrite Hload.
  apply load_config_ok in Hload as (Hkeys & [n Hn] & _).
  unfold XComBot.init. unfold bind at 1.
  destruct (setup_twitter_client_ok config w Hkeys) as (w1 & -> & _).
  rewrite Hn. unfold bind at 1. simpl int_of_value. unfold ret at 1.
  unfold bind at 1. unfold emit at 1. unfold bind at 1.
  match goal with
  | |- context [init_model env config ?w2] =>
      pose proof (Hmodel w2) as H2; destruct (init_model env config w2) as [r w3]
  end.
  simpl in H2. by subst r.
Qed.

Lemma name_in_false (m : string) (catalog : list string) :
  m ∉ catalog → ModelManager.name_in (VStr m) catalog = false.
Proof.
  intros Hnot. simpl. apply not_true_is_false. intros H.
  apply existsb_exists in H as (x & Hin & Heq).
  apply String.eqb_eq in Heq as <-. by apply Hnot, list_elem_of_In.
Qed.

Lemma messages_differ (model_name : value) (catalog : list string) :
  unreachable_message ≠ ModelManager.not_found_message model_name catalog.
Proof.
  unfold unreachable_message, ModelManager.not_found_message. intros H.
  cbn [String.append] in H. discriminate H.
Qed.

(** C9: with a configuration that [load_config] accepted and an inference
    service whose catalogue query always returns [catalog], start-up ends
    in a [ValueError] before the loop is entered: with the message that
    Ollama is not running or not reachable when [catalog] is empty, and
    with the message that names the configured model and lists [catalog],
    joined by [", "], when [catalog] is not empty and lacks the configured
    model; the two messages differ. *)
Theorem startup_checks_the_model env (environ : gmap string string)
    (config : gmap string value) (catalog : list string) (turns : nat) (w : World) :
  snd (Config.load_config environ) = Ok config →
  (∀ w', fst (ModelManager.list_available_models env
                (ModelManager.init (default VNone (config !! "model_name"))) w')
         = Ok catalog) →
  ∃ m : string,
    config !! "model_name" = Some (VStr m) ∧
    (catalog = [] →
     fst (main env environ turns w) = Exited (ValueError unreachable_message)) ∧
    (catalog ≠ [] → m ∉ catalog →
     fst (main env environ turns w)
     = Exited (ValueError (ModelManager.not_found_message (VStr m) catalog))) ∧
    (∃ rest : string,
        ModelManager.not_found_message (VStr m) catalog
        = "Модель " ++ m ++ " не найдена. Доступные модели:" ++ nl ++
          Py.join ", " catalog ++ rest) ∧
    unreachable_message ≠ ModelManager.not_found_message (VStr m) catalog.
Proof.
  intros Hload Hcatalog.
  destruct (load_config_ok environ config Hload) as (_ & _ & [m Hm]).
  exists m. split; [done|].
  assert (default VNone (config !! "model_name") = VStr m) as Hname by (by rewrite Hm).
  rewrite Hname in Hcatalog.
  split; [|split; [|split]].
  - intros Hempty. apply (main_fails_with_init_model env environ config); [done|].
    intros w'. by apply (init_model_unreachable env (VStr m) catalog).
  - intros Hne Hnot. apply (main_fails_with_init_model env environ config); [done|].
    intros w'. apply (init_model_not_installed env (VStr m) catalog); try done.
    by apply name_in_false.
  - eexists. unfold ModelManager.not_found_message, nl. simpl str_of_value.
    reflexivity.
  - apply messages_differ.
Qed.

Lemma startup_checks_the_model_witness :
  ∃ m : string,
    Sample.config_unknown_model !! "model_name" = Some (VStr m) ∧
    (["llama3"; "mistral"] = [] →
     fst (main Sample.calm Sample.environ_unknown_model 1 Sample.world0)
     = Exited (ValueError unreachable_message)) ∧
    (["llama3"; "mistral"] ≠ [] → m ∉ ["llama3"; "mistral"] →
     fst (main Sample.calm Sample.environ_unknown_model 1 Sample.world0)
     = Exited (ValueError (ModelManager.not_found_message (VStr m) ["llama3"; "mistral"]))) ∧
    (∃ rest : string,
        ModelManager.not_found_message (VStr m) ["llama3"; "mistral"]
        = "Модель " ++ m ++ " не найдена. Доступные модели:" ++ nl ++
          Py.join ", " ["llama3"; "mistral"] ++ rest) ∧
    unreachable_message ≠ ModelManager.not_found_message (VStr m) ["llama3"; "mistral"].
Proof.
  apply (startup_checks_the_model Sample.calm Sample.environ_unknown_model
           Sample.config_unknown_model ["llama3"; "mistral"] 1 Sample.world0).
  - vm_compute. reflexivity.
  - intros w'. reflexivity.
Defined.

(** The scenarios of the specification: catalogue [llama3, mistral] and
    configured model [gpt-x]; and an inference service that is down. *)
Example unknown_model_scenario :
  fst (main Sample.calm Sample.environ_unknown_model 1 Sample.world0)
  = Exited (ValueError
              (ModelManager.not_found_message (VStr "gpt-x") ["llama3"; "mistral"])) ∧
  Py.contains "llama3, mistral"
    (ModelManager.not_found_message (VStr "gpt-x") ["llama3"; "mistral"]) = true ∧
  fst (main Sample.tags_down Sample.full_environ 1 Sample.world0)
  = Exited (ValueError unreachable_message).
Proof. vm_compute. done. Qed.

(** The catalogue is queried a second time by [ensure_model_exists]: a
    service that answers the first query and not the second ends start-up
    with the third message, the one of [ensure_model_exists]. *)
Example catalogue_is_queried_twice :
  fst (main Sample.tags_vanish Sample.full_environ 1 Sample.world0)
  = Exited (ValueError ModelManager.no_models_message) ∧
  Sample.count_events (λ ev, match ev with ApiTags => true | _ => false end)
    (snd (main Sample.tags_vanish Sample.full_environ 1 Sample.world0)) = 2%nat.
Proof. vm_compute. done. Qed.

(** * Further properties of the code *)

(** ** Configuration: the successful path *)

(** The dictionary [load_config] builds when nothing is missing. *)
Lemma load_config_value (environ : gmap string string) (k s a ats b : string) :
  environ !! "TWITTER_API_KEY" = Some k →
  environ !! "TWITTER_API_SECRET" = Some s →
  environ !! "TWITTER_ACCESS_TOKEN" = Some a →
  environ !! "TWITTER_ACCESS_TOKEN_SECRET" = Some ats →
  environ !! "TWITTER_BEARER_TOKEN" = Some b →
  snd (Config.load_config environ) =
  Ok (<["check_interval" := VInt (Config.check_interval_of environ)]>
      (<["model_name" := VStr (Config.model_name_of environ)]>
      (<["twitter_bearer_token" := VStr b]>
      (<["twitter_access_token_secret" := VStr ats]>
      (<["twitter_access_token" := VStr a]>
      (<["twitter_api_secret" := VStr s]>
      (<["twitter_api_key" := VStr k]> ∅))))))).
Proof.
  intros Hk Hs Ha Hats Hb.
  unfold Config.load_config, Config.required_vars. cbn [fold_left].
  unfold Config.required_step, Config.getenv.
  rewrite Hk, Hs, Ha, Hats, Hb. cbn [Config.value_of_env].
  unfold Config.check_interval_of, Config.model_name_of, Config.getenv.
  destruct (environ !! "MODEL_NAME") as [[|c m]|];
    destruct (environ !! "CHECK_INTERVAL") as [[|c' i]|];
    try destruct (Py.int_of_str (String c' i)); reflexivity.
Qed.

(** X1: [load_config] returns a configuration exactly when every required
    variable is set.  The configuration then holds each credential under
    the lower-cased name of its variable, and its keys are these five
    names, [model_name] and [check_interval]. *)
Theorem load_config_succeeds_iff_complete (environ : gmap string string) :
  (is_raise (snd (Config.load_config environ)) = false ↔
   ∀ var, var ∈ Config.required_vars → is_Some (environ !! var)) ∧
  (∀ config,
      snd (Config.load_config environ) = Ok config →
      (∀ var, var ∈ Config.required_vars →
              config !! Py.lower var = VStr <$> environ !! var) ∧
      dom config =
      list_to_set [ "check_interval"; "model_name"; "twitter_bearer_token";
                    "twitter_access_token_secret"; "twitter_access_token";
                    "twitter_api_secret"; "twitter_api_key" ]).
Proof.
  assert ((∀ var, var ∈ Config.required_vars → is_Some (environ !! var)) →
          ∃ k s a ats b,
            environ !! "TWITTER_API_KEY" = Some k ∧
            environ !! "TWITTER_API_SECRET" = Some s ∧
            environ !! "TWITTER_ACCESS_TOKEN" = Some a ∧
            environ !! "TWITTER_ACCESS_TOKEN_SECRET" = Some ats ∧
            environ !! "TWITTER_BEARER_TOKEN" = Some b) as Hall.
  { intros H.
    destruct (H "TWITTER_API_KEY") as [k ?]; [set_solver|].
    destruct (H "TWITTER_API_SECRET") as [s ?]; [set_solver|].
    destruct (H "TWITTER_ACCESS_TOKEN") as [a ?]; [set_solver|].
    destruct (H "TWITTER_ACCESS_TOKEN_SECRET") as [ats ?]; [set_solver|].
    destruct (H "TWITTER_BEARER_TOKEN") as [b ?]; [set_solver|].
    by exists k, s, a, ats, b. }
  assert (is_raise (snd (Config.load_config environ)) = false →
          ∀ var, var ∈ Config.required_vars → is_Some (environ !! var)) as Honly.
  { intros Hok var Hvar.
    destruct (environ !! var) eqn:Hlook; [by eexists|].
    assert (var ∈ Config.missing environ) as Hin by (by apply missing_spec).
    rewrite load_config_result in Hok.
    destruct (Config.missing environ); [inversion Hin|done]. }
  split.
  - split; [exact Honly|]. intros H.
    destruct (Hall H) as (k & s & a & ats & b & Hk & Hs & Ha & Hats & Hb).
    by rewrite (load_config_value environ k s a ats b).
  - intros config Hload.
    assert (is_raise (snd (Config.load_config environ)) = false) as Hok
      by (by rewrite Hload).
    destruct (Hall (Honly Hok)) as (k & s & a & ats & b & Hk & Hs & Ha & Hats & Hb).
    rewrite (load_config_value environ k s a ats b) in Hload by done.
    injection Hload as <-. split.
    + intros var Hvar. unfold Config.required_vars in Hvar.
      repeat (apply elem_of_cons in Hvar as [->|Hvar]);
        [..|by apply elem_of_nil in Hvar];
        match goal with
        | |- _ !! Py.lower ?v = _ =>
            let l := eval vm_compute in (Py.lower v) in
            change (Py.lower v) with l
        end;
        rewrite ?lookup_insert_ne by done; rewrite lookup_insert_eq;
        by rewrite ?Hk, ?Hs, ?Ha, ?Hats, ?Hb.
    + by rewrite !dom_insert_L, dom_empty_L.
Qed.

Lemma load_config_succeeds_iff_complete_witness :
  (∀ var, var ∈ Config.required_vars →
          Sample.config_unknown_model !! Py.lower var
          = VStr <$> Sample.environ_unknown_model !! var) ∧
  dom Sample.config_unknown_model =
  list_to_set [ "check_interval"; "model_name"; "twitter_bearer_token";
                "twitter_access_token_secret"; "twitter_access_token";
                "twitter_api_secret"; "twitter_api_key" ].
Proof.
  destruct (load_config_succeeds_iff_complete Sample.environ_unknown_model) as [_ H].
  apply H. vm_compute. reflexivity.
Defined.



(** The scenario of the specification: [CHECK_INTERVAL=abc] gives 60. *)
Example check_interval_abc :
  ∃ config,
    snd (Config.load_config (<["CHECK_INTERVAL" := "abc"]> Sample.full_environ))
    = Ok config ∧ config !! "check_interval" = Some (VInt 60).
Proof. eexists. split; [vm_compute; reflexivity|]. vm_compute. reflexivity. Qed.

(** ** The relevance filter *)

Lemma append_String (c : ascii) (p post : string) :
  String c p ++ post = String c (p ++ post).
Proof. reflexivity. Qed.

Lemma prefix_spec (p s : string) :
  String.prefix p s = true ↔ ∃ post, s = p ++ post.
Proof.
  revert s. induction p as [|c p IH]; intros s.
  - split; [intros _; by exists s|by destruct s].
  - destruct s as [|c' s]; simpl; [split; [done|intros [post ?]; done]|].
    destruct (Ascii.ascii_dec c c') as [->|Hne].
    + rewrite IH. split; intros [post H]; exists post.
      * rewrite append_String. by rewrite H.
      * rewrite append_String in H. by injection H.
    + split; [done|]. intros [post H]. rewrite append_String in H. congruence.
Qed.

(** [Py.contains] is the substring test. *)
Lemma contains_spec (needle haystack : string) :
  Py.contains needle haystack = true ↔
  ∃ pre post, haystack = pre ++ needle ++ post.
Proof.
  induction haystack as [|c h IH]; cbn [Py.contains].
  - rewrite orb_false_r, prefix_spec. split.
    + intros [post H]. by exists "", post.
    + intros (pre & post & H). destruct pre; [by exists post|done].
  - rewrite orb_true_iff, prefix_spec, IH. split.
    + intros [[post H]|(pre & post & H)].
      * by exists "", post.
      * exists (String c pre), post. rewrite append_String. congruence.
    + intros (pre & post & H). destruct pre as [|c' pre].
      * left. by exists post.
      * right. exists pre, post. rewrite append_String in H. congruence.
Qed.

(** X3: the filter of [get_mentions] keeps a tweet exactly when one of its
    references has type [replied_to], or its text has the form
    [pre ++ "@" ++ username ++ post]. *)
Theorem relevant_spec (me : User) (tweet : Tweet) :
  relevant me tweet = true ↔
  (∃ refs ref,
      referenced_tweets tweet = Some refs ∧ ref ∈ refs ∧
      ref_type ref = "replied_to") ∨
  (∃ pre post, tweet_text tweet = pre ++ "@" ++ username me ++ post).
Proof.
  unfold relevant. rewrite orb_true_iff, !andb_true_iff. split.
  - intros [[Htruthy Hany]|[_ Hmention]].
    + left. destruct (referenced_tweets tweet) as [refs|]; [|done].
      apply existsb_exists in Hany as (ref & Hin & Htype).
      exists refs, ref. split; [done|]. split; [by apply list_elem_of_In|].
      by apply String.eqb_eq.
    + right. by apply contains_spec in Hmention.
  - intros [(refs & ref & Hrefs & Hin & Htype)|(pre & post & Htext)].
    + left. rewrite Hrefs. simpl. split.
      * destruct refs; [inversion Hin|done].
      * apply existsb_exists. exists ref. split; [by apply list_elem_of_In|].
        by apply String.eqb_eq.
    + right. split.
      * rewrite Htext. by destruct pre.
      * apply contains_spec. by exists pre, post.
Qed.

(** ** The rate limiter, exactly *)

(** What [enforce_rate_limit] does, in full. *)
Lemma enforce_rate_limit_effect env (s : State) :
  let now := (clock (world s) + elapsed env (step (world s)))%Q in
  let since := (now - last_request_time (self s))%Q in
  ∃ s' : State,
    enforce_rate_limit env s = (Ok tt, s') ∧
    trace (world s') =
      (trace (world s) ++
       if Qlt_bool since (request_delay (self s))
       then [(now, Sleep (request_delay (self s) - since))]
       else [])%list ∧
    last_request_time (self s') = clock (world s') ∧
    check_interval (self s') = check_interval (self s) ∧
    model_manager (self s') = model_manager (self s) ∧
    request_delay (self s') = request_delay (self s) ∧
    last_mention_id s' = last_mention_id s ∧
    log (world s') = log (world s).
Proof.
  destruct s as [[interval mm delay stamp] cursor [now0 n lg tr]].
  cbn [world self last_request_time request_delay clock step log trace
       check_interval model_manager last_mention_id].
  unfold enforce_rate_limit, bind, lift, time_time, get_self, set_last_request_time.
  cbn [world self last_request_time request_delay clock step log trace
       check_interval model_manager last_mention_id fst snd].
  destruct (Qlt_bool _ delay) eqn:Hlt.
  - apply Qlt_bool_true in Hlt.
    rewrite time_sleep_ok by lra.
    cbn [world self last_request_time request_delay clock step log trace fst snd].
    eexists. split; [reflexivity|].
    cbn [world self last_request_time request_delay clock step log trace
         check_interval model_manager last_mention_id].
    by repeat split.
  - unfold ret. eexists. split; [reflexivity|].
    cbn [world self last_request_time request_delay clock step log trace
         check_interval model_manager last_mention_id].
    by rewrite app_nil_r.
Qed.

(** X4: [enforce_rate_limit] never raises.  With [now] the time its first
    [time.time()] reads, it sleeps [request_delay - (now - last_request_time)]
    when that difference is below [request_delay] and does not sleep
    otherwise; it then records the time at which it returns, and changes
    nothing else of the bot, the cursor or the log. *)
Theorem enforce_rate_limit_waits_the_remainder env (s : State) :
  let now := (clock (world s) + elapsed env (step (world s)))%Q in
  let since := (now - last_request_time (self s))%Q in
  ∃ s' : State,
    enforce_rate_limit env s = (Ok tt, s') ∧
    trace (world s') =
      (trace (world s) ++
       if Qlt_bool since (request_delay (self s))
       then [(now, Sleep (request_delay (self s) - since))]
       else [])%list ∧
    last_request_time (self s') = clock (world s') ∧
    check_interval (self s') = check_interval (self s) ∧
    model_manager (self s') = model_manager (self s) ∧
    request_delay (self s') = request_delay (self s) ∧
    last_mention_id s' = last_mention_id s ∧
    log (world s') = log (world s).
Proof. apply enforce_rate_limit_effect. Qed.

(** The first call after start-up finds the time stamp 0 and does not
    sleep; a call half a time-unit after the previous one sleeps the
    remaining one and a half. *)
Example enforce_rate_limit_samples :
  let s1 := snd (enforce_rate_limit Sample.calm Sample.state0) in
  let late := {| self := self s1; last_mention_id := None;
                 world := {| clock := (1000 + 1 # 2)%Q; step := step (world s1);
                             log := []; trace := [] |} |} in
  trace (world s1) = [] ∧
  map snd (trace (world (snd (enforce_rate_limit Sample.calm late))))
  = [Sleep (2 - ((1000 + 1 # 2) + 0 - 1000))].
Proof. vm_compute. done. Qed.

(** ** The inference client *)

Lemma lstrip_spec (s : string) :
  (∃ pre, s = pre ++ Py.lstrip s ∧ Py.all_space pre = true) ∧
  (∀ c, Py.first_char (Py.lstrip s) = Some c → Py.is_space c = false).
Proof.
  induction s as [|c s [[pre [Hpre Hsp]] Hfirst]]; simpl.
  - split; [by exists ""|done].
  - destruct (Py.is_space c) eqn:Hc.
    + split; [|done]. exists (String c pre). rewrite append_String, <- Hpre.
      split; [done|]. simpl. by rewrite Hc.
    + split; [by exists ""|]. simpl. congruence.
Qed.

Lemma rstrip_spec (s : string) :
  (∃ post, s = Py.rstrip s ++ post ∧ Py.all_space post = true) ∧
  (∀ c, Py.last_char (Py.rstrip s) = Some c → Py.is_space c = false) ∧
  (∀ c, Py.first_char s = Some c → Py.is_space c = false →
        Py.first_char (Py.rstrip s) = Some c).
Proof.
  induction s as [|c s [[post [Hpost Hsp]] [Hlast _]]].
  - split; [by exists ""|]. by split.
  - cbn [Py.rstrip]. destruct (Py.rstrip s) as [|c' r] eqn:Hr.
    + destruct (Py.is_space c) eqn:Hc.
      * split; [|by split; [|intros ? [= ->]; congruence]].
        exists (String c post). split; [by rewrite Hpost|]. simpl. by rewrite Hc.
      * split; [|split].
        -- exists post. by rewrite Hpost.
        -- simpl. congruence.
        -- done.
    + split; [|split].
      * exists post. rewrite append_String. by rewrite <- Hpost.
      * intros c0 H0. apply Hlast. by destruct r.
      * done.
Qed.

(** What [strip] returns lies in its argument between white space, and
    has none at either end. *)
Lemma strip_spec (s : string) :
  (∃ pre post,
      s = pre ++ Py.strip s ++ post ∧
      Py.all_space pre = true ∧ Py.all_space post = true) ∧
  (∀ c, Py.first_char (Py.strip s) = Some c → Py.is_space c = false) ∧
  (∀ c, Py.last_char (Py.strip s) = Some c → Py.is_space c = false).
Proof.
  unfold Py.strip.
  destruct (lstrip_spec s) as [(pre & Hpre & Hsp) Hfirst].
  destruct (rstrip_spec (Py.lstrip s)) as [(post & Hpost & Hsp') [Hlast Hkeep]].
  split; [|split].
  - exists pre, post. by rewrite <- Hpost.
  - intros c Hc. destruct (Py.lstrip s) as [|c0 l] eqn:Hl; [done|].
    specialize (Hfirst c0 eq_refl). specialize (Hkeep c0 eq_refl Hfirst).
    congruence.
  - exact Hlast.
Qed.

(** X5: [ModelManager.generate_response] makes exactly one request.  It
    returns only for a reply with status 200 whose [response] field can be
    read, and returns that field with the white space at its ends
    removed; a reply with another status raises a [ValueError] that quotes
    the reply's text; every failure is logged once and raised again
    unchanged. *)
Theorem model_generate_response_spec env (mm : ModelManager.t)
    (prompt : string) (max_tokens : Z) (temperature : Q) (w : World) :
  let r := ModelManager.generate_response env mm prompt max_tokens temperature w in
  trace (snd r) =
    (trace w ++
     [(clock w, ApiGenerate (ModelManager.model_name mm) prompt max_tokens temperature)])%list ∧
  fst r =
    match api_generate env (step w) (ModelManager.model_name mm) prompt with
    | HttpRaise e => Raise e
    | HttpResponse status_code text json =>
        if status_code =? 200
        then match json with
             | Ok response => Ok (Py.strip response)
             | Raise e => Raise e
             end
        else Raise (ValueError ("Ошибка генерации: " ++ text))
    end ∧
  log (snd r) =
    (log w ++
     match fst r with
     | Ok _ => []
     | Raise e => [{| level := ERROR; message := "Ошибка при генерации ответа: ";
                      exc := Some e |}]
     end)%list ∧
  (∀ text, fst r = Ok text →
     (∀ c, Py.first_char text = Some c → Py.is_space c = false) ∧
     (∀ c, Py.last_char text = Some c → Py.is_space c = false)).
Proof.
  unfold ModelManager.generate_response, try_except, bind, interact.
  cbn [fst snd].
  destruct (api_generate env (step w) (ModelManager.model_name mm) prompt)
    as [e|status_code text [response|e]]; cbn; [by repeat split| |].
  - destruct (status_code =? 200); cbn; [|by repeat split].
    split; [done|]. split; [done|]. split; [by rewrite app_nil_r|].
    intros stripped [= <-]. destruct (strip_spec response) as (_ & Hf & Hl). by split.
  - destruct (status_code =? 200); cbn; by repeat split.
Qed.

(** ** Generating and posting a reply *)

Lemma lift_time_sleep_4 env (s : State) :
  lift (time_sleep env 4) s =
  (Ok tt,
   {| self := self s; last_mention_id := last_mention_id s;
      world := {| clock := (clock (world s) + 4 + elapsed env (step (world s)))%Q;
                  step := S (step (world s));
                  log := log (world s);
                  trace := (trace (world s) ++ [(clock (world s), Sleep 4)])%list |} |}).
Proof. unfold lift. by rewrite time_sleep_ok by (by vm_compute). Qed.

(** One attempt of [generate_response]: one request to the inference
    service, and nothing of the bot or the cursor changes. *)
Lemma generate_response_once_effect env (context query : string) (s : State) :
  ∃ r lg,
    generate_response_once env context query s =
    (r,
     {| self := self s; last_mention_id := last_mention_id s;
        world := {| clock := (clock (world s) + 0 + elapsed env (step (world s)))%Q;
                    step := S (step (world s));
                    log := lg;
                    trace := (trace (world s) ++
                              [(clock (world s),
                                ApiGenerate (ModelManager.model_name (model_manager (self s)))
                                  (prompt context query) 280 (7 # 10))])%list |} |}).
Proof.
  unfold generate_response_once, try_except, bind, get_self, lift, logger, lift.
  unfold ModelManager.generate_response, try_except, bind, interact.
  cbn [fst snd world self].
  destruct (api_generate env (step (world s)) _ _) as [e|code text [response|e]]; cbn.
  - eexists _, _. reflexivity.
  - destruct (code =? 200); cbn; eexists _, _; reflexivity.
  - destruct (code =? 200); cbn; eexists _, _; reflexivity.
Qed.

(** X6: [XComBot.generate_response] asks the inference service once, twice
    or three times, always with the configured model, the same prompt, 280
    tokens and temperature 0.7, sleeping 4 time-units between requests,
    and calls nothing else; it leaves the bot object (so also the rate
    limiter) and the cursor alone.  It raises only after the third
    request, and then a [RetryError].  The prompt holds the context and,
    after it, the query, both verbatim. *)
Theorem generate_response_requests env (context query : string) (s : State) :
  let request :=
    ApiGenerate (ModelManager.model_name (model_manager (self s)))
      (prompt context query) 280 (7 # 10) in
  let r := generate_response env context query s in
  self (snd r) = self s ∧
  last_mention_id (snd r) = last_mention_id s ∧
  (∃ evs,
      trace (world (snd r)) = (trace (world s) ++ evs)%list ∧
      (map snd evs = [request] ∨
       map snd evs = [request; Sleep 4; request] ∨
       map snd evs = [request; Sleep 4; request; Sleep 4; request]) ∧
      (∀ e, fst r = Raise e →
            map snd evs = [request; Sleep 4; request; Sleep 4; request] ∧
            ∃ last_failure, e = RetryError last_failure)) ∧
  (∃ pre mid post, prompt context query = pre ++ context ++ mid ++ query ++ post).
Proof.
  cbv zeta. split; [|split; [|split]].
  - apply (preserves_generate_response self); by intros [] ?.
  - apply (preserves_generate_response last_mention_id); by intros [] ?.
  - unfold generate_response. rewrite retry_is_three_attempts. unfold three_attempts.
    destruct (generate_response_once_effect env context query s) as (r1 & lg1 & ->).
    destruct r1 as [text|e1].
    { eexists [_]. cbn [snd fst world trace]. split; [done|]. split; [by left|done]. }
    rewrite lift_time_sleep_4. cbn [snd self last_mention_id world clock step log trace].
    match goal with
    | |- context [generate_response_once env context query ?s1] =>
        destruct (generate_response_once_effect env context query s1) as (r2 & lg2 & ->)
    end.
    cbn [snd self last_mention_id world clock step log trace].
    destruct r2 as [text|e2].
    { eexists [_; _; _]. cbn [snd fst world trace].
      split; [by rewrite <- !app_assoc|]. split; [by right; left|done]. }
    rewrite lift_time_sleep_4. cbn [snd self last_mention_id world clock step log trace].
    match goal with
    | |- context [generate_response_once env context query ?s2] =>
        destruct (generate_response_once_effect env context query s2) as (r3 & lg3 & ->)
    end.
    cbn [snd self last_mention_id world clock step log trace].
    eexists [_; _; _; _; _].
    destruct r3 as [text|e3]; cbn [snd fst world trace].
    + split; [by rewrite <- !app_assoc|]. split; [by right; right|done].
    + split; [by rewrite <- !app_assoc|]. split; [by right; right|].
      intros e [= <-]. split; [done|by eexists].
  - exists ("You are an AI assistant responding to posts on X.com (Twitter)." ++ nl ++
            "            Your task is to provide brief and relevant responses within 280 characters." ++
            nl ++ nl ++ "            Original post: "),
           (nl ++ "            Reply to respond to: "),
           (nl ++ nl ++
            "            Please provide a concise and engaging response that fits Twitter's character limit.").
    reflexivity.
Qed.

Lemma sleeps_are_no_posts (naps : list (Q * Event)) :
  Forall (λ te, Sample.is_sleep (snd te) = true) naps →
  List.filter (λ te, Sample.is_post (snd te)) naps = [].
Proof.
  induction 1 as [|[t ev] naps Hev _ IH]; [done|].
  simpl in *. rewrite IH. by destruct ev.
Qed.

(** One attempt of [post_response]: the rate limiter, then one
    [create_tweet]; of the bot object only the time stamp changes. *)
Lemma post_response_once_effect env (response : string) (reply_to_id : Z) (s : State) :
  ∃ r s' naps t,
    post_response_once env response reply_to_id s = (r, s') ∧
    trace (world s') =
      (trace (world s) ++ naps ++ [(t, CreateTweet response reply_to_id)])%list ∧
    Forall (λ te, Sample.is_sleep (snd te) = true) naps ∧
    check_interval (self s') = check_interval (self s) ∧
    model_manager (self s') = model_manager (self s) ∧
    request_delay (self s') = request_delay (self s) ∧
    last_mention_id s' = last_mention_id s ∧
    (r = Ok tt →
     last (log (world s')) =
     Some {| level := INFO;
             message := "Posted response to tweet " ++ Py.str_of_int reply_to_id;
             exc := None |}).
Proof.
  destruct (enforce_rate_limit_effect env s)
    as (s1 & Hrun & Htrace & _ & Hci & Hmm & Hrd & Hcur & _).
  unfold post_response_once, try_except.
  rewrite (bind_ok _ _ _ _ _ Hrun).
  unfold bind, lift, logger, lift, Twitter.create_tweet, bind, interact, of_result, emit.
  cbn [fst snd world self].
  set (naps := if Qlt_bool _ _ then _ else _) in Htrace.
  assert (Forall (λ te, Sample.is_sleep (snd te) = true) naps) as Hnaps.
  { subst naps. destruct (Qlt_bool _ _); by repeat constructor. }
  destruct (create_tweet env (step (world s1)) response reply_to_id) as [[]|e] eqn:Hct;
    cbn; eexists _, _, naps, (clock (world s1));
    (split; [reflexivity|]);
    cbn [world self trace step check_interval model_manager request_delay
         last_mention_id];
    rewrite Htrace, <- app_assoc; repeat split; try done;
    intros _; apply last_snoc.
Qed.

(** X7: [post_response] calls [create_tweet] once, twice or three times,
    always with the given text and id, and besides that only sleeps; of
    the bot object it changes nothing but the rate limiter's time stamp.
    When it returns, the last thing it did was the successful
    [create_tweet], and it logged the post; it raises only after the third
    call, and then a [RetryError]. *)
Theorem post_response_requests env (response : string) (reply_to_id : Z) (s : State) :
  let r := post_response env response reply_to_id s in
  let posts (evs : list (Q * Event)) :=
    List.length (List.filter (λ te, Sample.is_post (snd te)) evs) in
  check_interval (self (snd r)) = check_interval (self s) ∧
  model_manager (self (snd r)) = model_manager (self s) ∧
  request_delay (self (snd r)) = request_delay (self s) ∧
  last_mention_id (snd r) = last_mention_id s ∧
  ∃ evs,
    trace (world (snd r)) = (trace (world s) ++ evs)%list ∧
    Forall (λ te, snd te = CreateTweet response reply_to_id ∨
                  Sample.is_sleep (snd te) = true) evs ∧
    (1 ≤ posts evs ≤ 3)%nat ∧
    (fst r = Ok tt →
     (∃ t, last evs = Some (t, CreateTweet response reply_to_id)) ∧
     last (log (world (snd r))) =
     Some {| level := INFO;
             message := "Posted response to tweet " ++ Py.str_of_int reply_to_id;
             exc := None |}) ∧
    (∀ e, fst r = Raise e →
          posts evs = 3%nat ∧ ∃ last_failure, e = RetryError last_failure).
Proof.
  cbv zeta.
  split; [apply (preserves_post_response (λ x, check_interval (self x))); by intros [] ?|].
  split; [apply (preserves_post_response (λ x, model_manager (self x))); by intros [] ?|].
  split; [apply (preserves_post_response (λ x, request_delay (self x))); by intros [] ?|].
  split; [apply (preserves_post_response last_mention_id); by intros [] ?|].
  assert (∀ naps, Forall (λ te, Sample.is_sleep (snd te) = true) naps →
            Forall (λ te : Q * Event, snd te = CreateTweet response reply_to_id ∨
                          Sample.is_sleep (snd te) = true) naps) as Hweak.
  { intros naps H. eapply Forall_impl; [exact H|]. intros ? ?. by right. }
  assert (∀ naps t, Forall (λ te, Sample.is_sleep (snd te) = true) naps →
            List.filter (λ te : Q * Event, Sample.is_post (snd te))
              (naps ++ [(t, CreateTweet response reply_to_id)])
            = [(t, CreateTweet response reply_to_id)]) as Hone.
  { intros naps t Hn. rewrite List.filter_app, (sleeps_are_no_posts _ Hn). done. }
  unfold post_response. rewrite retry_is_three_attempts. unfold three_attempts.
  destruct (post_response_once_effect env response reply_to_id s)
    as (r1 & s1 & naps1 & t1 & -> & Htr1 & Hn1 & _ & _ & _ & _ & Hlog1).
  destruct r1 as [[]|e1].
  { exists (naps1 ++ [(t1, CreateTweet response reply_to_id)])%list.
    cbn [fst snd]. split; [done|].
    split; [apply Forall_app; split; [by apply Hweak|by repeat constructor; left]|].
    rewrite Hone by done. split; [simpl; lia|].
    split; [|done]. intros _. split; [|by apply Hlog1].
    exists t1. apply last_snoc. }
  rewrite lift_time_sleep_4. cbn [snd].
  match goal with
  | |- context [post_response_once env response reply_to_id ?x] =>
      destruct (post_response_once_effect env response reply_to_id x)
        as (r2 & s2 & naps2 & t2 & -> & Htr2 & Hn2 & _ & _ & _ & _ & Hlog2)
  end.
  cbn [world trace] in Htr2. rewrite Htr1 in Htr2.
  destruct r2 as [[]|e2].
  { exists ((naps1 ++ [(t1, CreateTweet response reply_to_id)]) ++
            [(clock (world s1), Sleep 4)] ++
            naps2 ++ [(t2, CreateTweet response reply_to_id)])%list.
    cbn [fst snd]. split; [by rewrite Htr2, <- !app_assoc|].
    split.
    { repeat (apply Forall_app; split); try (by apply Hweak);
        repeat constructor; by (left + right). }
    rewrite !List.filter_app, (sleeps_are_no_posts naps1),
      (sleeps_are_no_posts naps2) by done.
    split; [simpl; lia|].
    split; [|done]. intros _. split; [|by apply Hlog2].
    exists t2. rewrite !app_assoc. apply last_snoc. }
  rewrite lift_time_sleep_4. cbn [snd].
  match goal with
  | |- context [post_response_once env response reply_to_id ?x] =>
      destruct (post_response_once_effect env response reply_to_id x)
        as (r3 & s3 & naps3 & t3 & -> & Htr3 & Hn3 & _ & _ & _ & _ & Hlog3)
  end.
  cbn [world trace] in Htr3. rewrite Htr2 in Htr3.
  exists ((naps1 ++ [(t1, CreateTweet response reply_to_id)]) ++
          [(clock (world s1), Sleep 4)] ++
          (naps2 ++ [(t2, CreateTweet response reply_to_id)]) ++
          [(clock (world s2), Sleep 4)] ++
          naps3 ++ [(t3, CreateTweet response reply_to_id)])%list.
  assert (List.length
            (List.filter (λ te : Q * Event, Sample.is_post (snd te))
               ((naps1 ++ [(t1, CreateTweet response reply_to_id)]) ++
                [(clock (world s1), Sleep 4)] ++
                (naps2 ++ [(t2, CreateTweet response reply_to_id)]) ++
                [(clock (world s2), Sleep 4)] ++
                naps3 ++ [(t3, CreateTweet response reply_to_id)])) = 3%nat) as Hcount.
  { by rewrite !List.filter_app, (sleeps_are_no_posts naps1),
      (sleeps_are_no_posts naps2), (sleeps_are_no_posts naps3) by done. }
  split.
  { destruct r3; cbn [fst snd]; by rewrite Htr3, <- !app_assoc. }
  split.
  { repeat (apply Forall_app; split); try (by apply Hweak);
      repeat constructor; by (left + right). }
  rewrite Hcount. split; [lia|].
  destruct r3 as [[]|e3]; cbn [fst snd].
  - split; [|done]. intros _. split; [|by apply Hlog3].
    exists t3. rewrite !app_assoc. apply last_snoc.
  - split; [done|]. intros e [= <-]. split; [done|by eexists].
Qed.

(** ** Polling *)

(** X8: [get_mentions] goes through the rate limiter, asks the platform
    who the bot is and, when that answer names a user, asks once for that
    user's tweets since the [since_id] it was given; it makes no other
    call, and of the bot object it changes only the rate limiter's time
    stamp.  The cursor is not touched. *)
Theorem get_mentions_requests env (since_id : option Z) (s : State) :
  let r := get_mentions env since_id s in
  check_interval (self (snd r)) = check_interval (self s) ∧
  model_manager (self (snd r)) = model_manager (self s) ∧
  request_delay (self (snd r)) = request_delay (self s) ∧
  last_mention_id (snd r) = last_mention_id s ∧
  ∃ naps calls,
    trace (world (snd r)) = (trace (world s) ++ naps ++ calls)%list ∧
    Forall (λ te, Sample.is_sleep (snd te) = true) naps ∧
    (map snd calls = [GetMe] ∨
     ∃ n me,
       get_me env n = Ok (Some me) ∧
       map snd calls = [GetMe; GetUsersTweets (user_id me) since_id]).
Proof.
  cbv zeta.
  split; [apply (preserves_get_mentions (λ x, check_interval (self x))); by intros [] ?|].
  split; [apply (preserves_get_mentions (λ x, model_manager (self x))); by intros [] ?|].
  split; [apply (preserves_get_mentions (λ x, request_delay (self x))); by intros [] ?|].
  split; [apply (preserves_get_mentions last_mention_id); by intros [] ?|].
  destruct (enforce_rate_limit_effect env s) as (s1 & Hrun & Htrace & _).
  set (naps := if Qlt_bool _ _ then _ else _) in Htrace.
  assert (Forall (λ te, Sample.is_sleep (snd te) = true) naps) as Hnaps.
  { subst naps. destruct (Qlt_bool _ _); by repeat constructor. }
  clearbody naps.
  unfold get_mentions, get_mentions_try, try_except.
  rewrite (bind_ok _ _ _ _ _ Hrun).
  unfold bind at 1. unfold lift at 1.
  unfold Twitter.get_me, bind, interact, of_result. cbn [fst snd].
  destruct (get_me env (step (world s1))) as [[me|]|e] eqn:Hme; cbn.
  - unfold lift at 1. unfold Twitter.get_users_tweets, bind, interact, of_result.
    cbn [fst snd world step clock log trace].
    destruct (get_users_tweets env _ (user_id me) since_id) as [[[|t tweets]|]|e];
      cbn; eexists naps, [_; _];
      (split; [by rewrite Htrace, <- !app_assoc|]);
      (split; [done|]); right; by exists (step (world s1)), me.
  - exists naps, [(clock (world s1), GetMe)].
    split; [by rewrite Htrace, <- !app_assoc|]. split; [done|by left].
  - exists naps, [(clock (world s1), GetMe)].
    split; [by rewrite Htrace, <- !app_assoc|]. split; [done|by left].
Qed.

(** ** Answering a mention *)

Lemma find_some_truthy {A} (p : A -> bool) (l : option (list A)) (x : A) :
  List.find p (default [] l) = Some x → truthy l = true.
Proof. by destruct l as [[|? ?]|]. Qed.

(** A post that the platform accepts goes out at the first attempt. *)
Lemma post_response_ok env (response : string) (reply_to_id : Z) (s : State) :
  (∀ n, create_tweet env n response reply_to_id = Ok tt) →
  ∃ (s' : State) (naps : list (Q * Event)) (t : Q),
    post_response env response reply_to_id s = (Ok tt, s') ∧
    trace (world s') =
      (trace (world s) ++ naps ++ [(t, CreateTweet response reply_to_id)])%list ∧
    Forall (λ te, Sample.is_sleep (snd te) = true) naps ∧
    log (world s') =
      (log (world s) ++
       [{| level := INFO;
           message := "Posted response to tweet " ++ Py.str_of_int reply_to_id;
           exc := None |}])%list.
Proof.
  intros Hpost.
  unfold post_response. rewrite retry_is_three_attempts. unfold three_attempts.
  unfold post_response_once at 1. unfold try_except.
  destruct (enforce_rate_limit_effect env s)
    as (s1 & Hrun & Htrace & _ & _ & _ & _ & _ & Hlog).
  rewrite (bind_ok _ _ _ _ _ Hrun).
  set (naps := if Qlt_bool _ _ then _ else _) in Htrace.
  assert (Forall (λ te, Sample.is_sleep (snd te) = true) naps) as Hnaps.
  { subst naps. destruct (Qlt_bool _ _); by repeat constructor. }
  clearbody naps.
  unfold bind, lift, logger, lift, Twitter.create_tweet, bind, interact, of_result, emit.
  cbn [fst snd world self]. rewrite Hpost. cbn.
  eexists _, naps, _. split; [reflexivity|].
  cbn [world trace log]. rewrite Htrace, Hlog.
  split; [by rewrite <- !app_assoc|]. by split.
Qed.

(** X9: when the mention has a [replied_to] reference, the platform has
    the post it refers to, the inference service answers with status 200
    and posting is accepted, [process_mention] fetches the post of the
    first such reference, asks for one generation with the prompt built
    from that post's text and the mention's text, and posts the trimmed
    answer once as a reply to the mention, after at most a sleep of the
    rate limiter; it logs the post and nothing else. *)
Theorem process_mention_answers env (mention original : Tweet) (ref : ReferencedTweet)
    (body response : string) (s : State) :
  List.find is_replied_to (default [] (referenced_tweets mention)) = Some ref →
  (∀ n, get_tweet env n (ref_id ref) = Ok (Some original)) →
  (∀ n, api_generate env n (ModelManager.model_name (model_manager (self s)))
          (prompt (tweet_text original) (tweet_text mention))
        = HttpResponse 200 body (Ok response)) →
  (∀ n, create_tweet env n (Py.strip response) (tweet_id mention) = Ok tt) →
  ∃ (s' : State) (t1 t2 t3 : Q) (naps : list (Q * Event)),
    process_mention env mention s = (Ok tt, s') ∧
    trace (world s') =
      (trace (world s) ++
       [(t1, GetTweet (ref_id ref));
        (t2, ApiGenerate (ModelManager.model_name (model_manager (self s)))
               (prompt (tweet_text original) (tweet_text mention)) 280 (7 # 10))] ++
       naps ++
       [(t3, CreateTweet (Py.strip response) (tweet_id mention))])%list ∧
    Forall (λ te, Sample.is_sleep (snd te) = true) naps ∧
    log (world s') =
      (log (world s) ++
       [{| level := INFO;
           message := "Posted response to tweet " ++ Py.str_of_int (tweet_id mention);
           exc := None |}])%list.
Proof.
  intros Hfind Hget Hgen Hpost.
  unfold process_mention, try_except, process_mention_try.
  rewrite (find_some_truthy _ _ _ Hfind), Hfind.
  unfold bind at 1. unfold lift at 1.
  unfold Twitter.get_tweet. unfold bind at 1. unfold interact at 1.
  cbn [fst snd]. rewrite Hget. cbn [of_result ret].
  unfold bind at 1.
  unfold generate_response. rewrite retry_is_three_attempts. unfold three_attempts.
  unfold generate_response_once at 1.
  unfold try_except at 1. unfold bind at 1. unfold get_self at 1.
  cbn [fst snd world self].
  unfold lift at 1. unfold ModelManager.generate_response.
  unfold try_except at 1. unfold bind at 1. unfold interact at 1.
  cbn [fst snd world self step clock log trace].
  rewrite Hgen. cbn [Z.eqb Pos.eqb negb of_result]. unfold bind at 1. cbn [ret].
  match goal with
  | |- context [post_response env ?resp ?id ?x] =>
      destruct (post_response_ok env resp id x Hpost)
        as (s' & naps & t3 & -> & Htrace & Hnaps & Hlog)
  end.
  cbn [world trace log] in Htrace, Hlog.
  exists s', (clock (world s)),
    (clock (world s) + 0 + elapsed env (step (world s)))%Q, t3, naps.
  split; [done|]. split; [by rewrite Htrace, <- !app_assoc|]. by split.
Qed.

Lemma process_mention_answers_witness :
  ∃ (s' : State) (t1 t2 t3 : Q) (naps : list (Q * Event)),
    process_mention Sample.calm Sample.reply Sample.state0 = (Ok tt, s') ∧
    trace (world s') =
      (trace (world Sample.state0) ++
       [(t1, GetTweet 40);
        (t2, ApiGenerate (VStr "llama3")
               (prompt "the original post" "what about this?") 280 (7 # 10))] ++
       naps ++
       [(t3, CreateTweet (Py.strip " sure! ") 50)])%list ∧
    Forall (λ te, Sample.is_sleep (snd te) = true) naps ∧
    log (world s') =
      (log (world Sample.state0) ++
       [{| level := INFO;
           message := "Posted response to tweet " ++ Py.str_of_int 50;
           exc := None |}])%list.
Proof.
  apply (process_mention_answers Sample.calm Sample.reply Sample.original
           {| ref_id := 40; ref_type := "replied_to" |} "" " sure! " Sample.state0);
    reflexivity || (intros; reflexivity).
Defined.

(** X10: when the platform no longer has the post a mention replies to
    (the reply comes without data), [process_mention] stops after that
    one fetch: nothing is generated, nothing is posted, the failure is
    logged as an error and [process_mention] returns normally. *)
Theorem process_mention_original_gone env (mention : Tweet) (ref : ReferencedTweet)
    (s : State) :
  List.find is_replied_to (default [] (referenced_tweets mention)) = Some ref →
  get_tweet env (step (world s)) (ref_id ref) = Ok None →
  process_mention env mention s =
  (Ok tt,
   {| self := self s;
      last_mention_id := last_mention_id s;
      world :=
        {| clock := (clock (world s) + 0 + elapsed env (step (world s)))%Q;
           step := S (step (world s));
           log := (log (world s) ++
                   [{| level := ERROR;
                       message := "Error processing mention " ++
                                  Py.str_of_int (tweet_id mention) ++ ": ";
                       exc := Some (none_has_no "text") |}])%list;
           trace := (trace (world s) ++
                     [(clock (world s), GetTweet (ref_id ref))])%list |} |}).
Proof.
  intros Hfind Hget.
  unfold process_mention, try_except, process_mention_try.
  rewrite (find_some_truthy _ _ _ Hfind), Hfind.
  unfold bind, lift, Twitter.get_tweet, bind, interact, of_result.
  cbn [fst snd]. by rewrite Hget.
Qed.

Lemma process_mention_original_gone_witness :
  process_mention Sample.original_deleted Sample.reply Sample.state0 =
  (Ok tt,
   {| self := self Sample.state0;
      last_mention_id := last_mention_id Sample.state0;
      world :=
        {| clock := (clock (world Sample.state0) + 0 +
                     elapsed Sample.original_deleted (step (world Sample.state0)))%Q;
           step := S (step (world Sample.state0));
           log := (log (world Sample.state0) ++
                   [{| level := ERROR;
                       message := "Error processing mention " ++
                                  Py.str_of_int (tweet_id Sample.reply) ++ ": ";
                       exc := Some (none_has_no "text") |}])%list;
           trace := (trace (world Sample.state0) ++
                     [(clock (world Sample.state0), GetTweet 40)])%list |} |}).
Proof.
  apply (process_mention_original_gone Sample.original_deleted Sample.reply
           {| ref_id := 40; ref_type := "replied_to" |} Sample.state0);
    reflexivity.
Defined.

(** ** The loop over time *)

Section Clock.

Variable env : Env.
Hypothesis elapsed_nonneg : ∀ n, (0 <= elapsed env n)%Q.




















End Clock.



(** ** The loop and the bot object *)

Section LoopFrame.

Context {X : Type} (f : State -> X).
Hypothesis f_world_blind : world_blind f.
Hypothesis f_stamp_blind : stamp_blind f.
Hypothesis f_cursor_blind : ∀ x, preserves f (set_last_mention_id x).



End LoopFrame.



(** X13: once the loop has a cursor it never loses it: after any number
    of turns, whether the loop goes on or was left, [last_mention_id] is
    still set, so later polls always carry a [since_id]. *)
Theorem cursor_is_never_unset env (turns : nat) (s : State) :
  is_Some (last_mention_id s) →
  is_Some (last_mention_id (snd (run_loop env turns s))).
Proof.
  revert s. induction turns as [|turns IH]; intros s Hs; [done|].
  simpl.
  destruct (run_iteration_cursor env s) as (mentions & _ & Hcursor).
  destruct (run_iteration env s) as [[[]|e] s']; simpl in *.
  - apply IH. rewrite Hcursor. by destruct mentions.
  - rewrite Hcursor. by destruct mentions.
Qed.

Lemma cursor_is_never_unset_witness :
  is_Some (last_mention_id
             (snd (run_loop Sample.fetch_down 3
                     {| self := Sample.bot0; last_mention_id := Some 51;
                        world := Sample.world0 |}))).
Proof.
  apply (cursor_is_never_unset Sample.fetch_down 3). by eexists.
Defined.

(** ** Start-up: the edges *)

(** X14: [XComBot.__init__] needs the five keys that
    [setup_twitter_client] reads: when one is absent it raises [KeyError]
    for the first absent one, in the order bearer token, API key, API
    secret, access token, access token secret, before it logs or calls
    anything.  In particular a configuration that has just the keys the
    docstring lists as required fails on [twitter_bearer_token]. *)
Theorem init_needs_the_client_keys env (config : gmap string value) (key : string)
    (w : World) :
  List.find (lacks config) client_keys = Some key →
  XComBot.init env config w = (Raise (KeyError key), w).
Proof.
  unfold client_keys, lacks. cbn [List.find].
  unfold XComBot.init, setup_twitter_client, config_item, bind.
  destruct (config !! "twitter_bearer_token"); [|by intros [= <-]].
  destruct (config !! "twitter_api_key"); [|by intros [= <-]].
  destruct (config !! "twitter_api_secret"); [|by intros [= <-]].
  destruct (config !! "twitter_access_token"); [|by intros [= <-]].
  destruct (config !! "twitter_access_token_secret"); [|by intros [= <-]].
  done.
Qed.

Lemma init_needs_the_client_keys_witness :
  XComBot.init Sample.calm Sample.docstring_config Sample.world0
  = (Raise (KeyError "twitter_bearer_token"), Sample.world0).
Proof.
  apply (init_needs_the_client_keys Sample.calm Sample.docstring_config).
  vm_compute. reflexivity.
Defined.




(** An interval given as text is read, one that is no number is fatal. *)
Example init_with_text_interval :
  (∃ bot w', XComBot.init Sample.calm (Sample.text_config " 30 ") Sample.world0
             = (Ok bot, w') ∧ check_interval bot = 30) ∧
  fst (XComBot.init Sample.calm (Sample.text_config "abc") Sample.world0)
  = Raise (ValueError "invalid literal for int() with base 10: abc").
Proof. split; [eexists _, _; split|]; vm_compute; reflexivity. Qed.

(** ** Start-up: the model check *)

Lemma name_in_spec (model_name : value) (names : list string) :
  ModelManager.name_in model_name names = true ↔
  ∃ m, model_name = VStr m ∧ m ∈ names.
Proof.
  destruct model_name as [|m|n]; simpl.
  - split; [done|by intros (? & ? & _)].
  - rewrite existsb_exists. split.
    + intros (x & Hin & Heq). apply String.eqb_eq in Heq as <-.
      exists m. split; [done|]. by apply list_elem_of_In.
    + intros (m' & [= <-] & Hin). exists m. split; [by apply list_elem_of_In|].
      apply String.eqb_refl.
  - split; [done|by intros (? & ? & _)].
Qed.


(** X16: [ensure_model_exists] makes one request for the catalogue, and
    it returns normally exactly when that request is answered with status
    200 and a list of names that holds the configured model name, which
    has to be a string.  Every other outcome (the request fails, another
    status, an unreadable payload, an empty list, a name that is not
    listed) is a [ValueError]. *)
Theorem ensure_model_exists_spec env (mm : ModelManager.t) (w : World) :
  let r := ModelManager.ensure_model_exists env mm w in
  trace (snd r) = (trace w ++ [(clock w, ApiTags)])%list ∧
  (fst r = Ok tt ↔
   ∃ names m, catalogue_is env (step w) names ∧
              ModelManager.model_name mm = VStr m ∧ m ∈ names) ∧
  (∀ e, fst r = Raise e → ∃ msg, e = ValueError msg).
Proof.
  cbv zeta. unfold catalogue_is.
  unfold ModelManager.ensure_model_exists, ModelManager.list_available_models,
    try_except, bind, interact.
  cbv beta iota zeta. unfold fst at 1, snd at 1.
  destruct (api_tags env (step w)) as [e|status text [names|e]] eqn:Htags.
  - simpl. split; [done|]. split; [|intros ? [= <-]; eauto].
    split; [done|]. by intros (? & ? & [? ?] & _).
  - destruct (status =? 200) eqn:Hstatus.
    + apply Z.eqb_eq in Hstatus as ->. simpl.
      destruct names as [|name names]; simpl.
      { split; [done|]. split; [|intros ? [= <-]; eauto].
        split; [done|]. intros (ns & m & [? [= <- <-]] & _ & Hin). inversion Hin. }
      destruct (ModelManager.name_in (ModelManager.model_name mm) (name :: names))
        eqn:Hin; simpl.
      * split; [done|]. split; [|done]. split; [|done]. intros _.
        apply name_in_spec in Hin as (m & Hm & Hin). eauto 10.
      * split; [done|]. split; [|intros ? [= <-]; eauto].
        split; [done|]. intros (ns & m & [? [= <- <-]] & Hm & Hm').
        assert (ModelManager.name_in (ModelManager.model_name mm) (name :: names) = true)
          as Hyes by (apply name_in_spec; eauto).
        congruence.
    + simpl. split; [done|]. split; [|intros ? [= <-]; eauto].
      split; [done|]. intros (ns & m & [? [= -> _ _]] & _). done.
  - destruct (status =? 200) eqn:Hstatus; simpl.
    + split; [done|]. split; [|intros ? [= <-]; eauto].
      split; [done|]. by intros (? & ? & [? ?] & _).
    + split; [done|]. split; [|intros ? [= <-]; eauto].
      split; [done|]. by intros (? & ? & [? ?] & _).
Qed.





(** ** What the bot sends out *)

Section Emits.

Variable env : Env.
Variable target : Z -> Prop.


















End Emits.


